(** * Composite genotype of a modular robot: variation and persistence

    Shallow embedding of [darwinian_evolution/genotype.py]: the [Genotype]
    dataclass, the [GenotypeSerializer] (to_database / from_database), and the
    variation operators [random], [mutate] and [crossover].

    The collaborators imported by the module (the CPPNWIN body genotype, the
    array brain genotype, MultiNEAT, the float serializer, [random.Random] and
    the SQL session) are not part of the file; they enter the development as
    parameters with the signatures the module uses. *)

From Stdlib Require Import ZArith List Floats.
From stdpp Require Import base option list strings gmap.

Set Warnings "-inexact-float".
Open Scope Z_scope.

(** ** Exceptions and results *)

(** The exceptions the module can raise: [IncompatibleError] explicitly,
    [KeyError] from a dictionary subscript, [AssertionError] from [assert]. *)
Inductive exn : Type :=
  | IncompatibleError
  | KeyError (key : Z)
  | AssertionError.

Inductive result (A : Type) : Type :=
  | Ok (a : A)
  | Raise (e : exn).
Arguments Ok {A} a.
Arguments Raise {A} e.

#[global] Instance result_ret : MRet result := fun A a => Ok a.
#[global] Instance result_bind : MBind result := fun A B f m =>
  match m with
  | Ok a => f a
  | Raise e => Raise e
  end.
#[global] Instance result_fmap : FMap result := fun A B f m =>
  match m with
  | Ok a => Ok (f a)
  | Raise e => Raise e
  end.

(** Python's [zip] of three lists: stops at the shortest. *)
Fixpoint zip3_with {A B C D : Type} (f : A → B → C → D)
    (l1 : list A) (l2 : list B) (l3 : list C) : list D :=
  match l1, l2, l3 with
  | a :: l1, b :: l2, c :: l3 => f a b c :: zip3_with f l1 l2 l3
  | _, _, _ => []
  end.

(** ** The [Serializer] interface

    [revolve2.core.database.Serializer]: [to_database] writes a batch and
    returns one id per object, [from_database] reads a batch and makes no
    change to the database. A call can raise. *)
Module Serializer.
Record t (Store T : Type) : Type := Build {
  to_database : Store → list T → result (list Z * Store);
  from_database : Store → list Z → result (list T)
}.
Arguments Build {Store T} _ _.
Arguments to_database {Store T} _ _ _.
Arguments from_database {Store T} _ _ _.
End Serializer.

(** ** MultiNEAT parameters *)

Inductive ActivationFunction : Type :=
  | SIGNED_SIGMOID | UNSIGNED_SIGMOID | TANH | TANH_CUBIC
  | SIGNED_STEP | UNSIGNED_STEP | SIGNED_GAUSS | UNSIGNED_GAUSS
  | ABS | SIGNED_SINE | UNSIGNED_SINE | LINEAR.

(** The fields of [multineat.Parameters] that the module assigns; every other
    field keeps the library's default. *)
Record Parameters : Type := {
  MutateRemLinkProb : float;
  RecurrentProb : float;
  OverallMutationRate : float;
  MutateAddLinkProb : float;
  MutateAddNeuronProb : float;
  MutateWeightsProb : float;
  MaxWeight : float;
  WeightMutationMaxPower : float;
  WeightReplacementMaxPower : float;
  MutateActivationAProb : float;
  ActivationAMutationMaxPower : float;
  MinActivationA : float;
  MaxActivationA : float;
  MutateNeuronActivationTypeProb : float;
  MutateOutputActivationFunction : bool;
  ActivationFunction_SignedSigmoid_Prob : float;
  ActivationFunction_UnsignedSigmoid_Prob : float;
  ActivationFunction_Tanh_Prob : float;
  ActivationFunction_TanhCubic_Prob : float;
  ActivationFunction_SignedStep_Prob : float;
  ActivationFunction_UnsignedStep_Prob : float;
  ActivationFunction_SignedGauss_Prob : float;
  ActivationFunction_UnsignedGauss_Prob : float;
  ActivationFunction_Abs_Prob : float;
  ActivationFunction_SignedSine_Prob : float;
  ActivationFunction_UnsignedSine_Prob : float;
  ActivationFunction_Linear_Prob : float;
  MutateNeuronTraitsProb : float;
  MutateLinkTraitsProb : float;
  AllowLoops : bool
}.

Definition _make_multineat_params : Parameters := {|
  MutateRemLinkProb := 0.02;
  RecurrentProb := 0.0;
  OverallMutationRate := 0.15;
  MutateAddLinkProb := 0.08;
  MutateAddNeuronProb := 0.01;
  MutateWeightsProb := 0.90;
  MaxWeight := 8.0;
  WeightMutationMaxPower := 0.2;
  WeightReplacementMaxPower := 1.0;
  MutateActivationAProb := 0.0;
  ActivationAMutationMaxPower := 0.5;
  MinActivationA := 0.05;
  MaxActivationA := 6.0;
  MutateNeuronActivationTypeProb := 0.03;
  MutateOutputActivationFunction := false;
  ActivationFunction_SignedSigmoid_Prob := 0.0;
  ActivationFunction_UnsignedSigmoid_Prob := 0.0;
  ActivationFunction_Tanh_Prob := 1.0;
  ActivationFunction_TanhCubic_Prob := 0.0;
  ActivationFunction_SignedStep_Prob := 1.0;
  ActivationFunction_UnsignedStep_Prob := 0.0;
  ActivationFunction_SignedGauss_Prob := 1.0;
  ActivationFunction_UnsignedGauss_Prob := 0.0;
  ActivationFunction_Abs_Prob := 0.0;
  ActivationFunction_SignedSine_Prob := 1.0;
  ActivationFunction_UnsignedSine_Prob := 0.0;
  ActivationFunction_Linear_Prob := 1.0;
  MutateNeuronTraitsProb := 0.0;
  MutateLinkTraitsProb := 0.0;
  AllowLoops := false
|}.

Definition _MULTINEAT_PARAMS : Parameters := _make_multineat_params.

(** ** The database row *)

(** [DbGenotype]: the ORM object of table "genotype". [id] is [None] on a
    freshly constructed object and is filled in by the flush that inserts the
    row. *)
Module DbGenotype.
Record t : Type := Build {
  id : option Z;
  body_id : Z;
  brain_id : Z;
  seed_id : Z
}.
Definition __tablename__ : string := "genotype".
End DbGenotype.

(** ** The composite genotype *)

Section Model.
(** Types of the collaborators' values. *)
Context {CppnwinGenotype ArrayGenotype : Type}.

(** The [Genotype] dataclass. *)
Record Genotype : Type := Build_Genotype {
  body : CppnwinGenotype;
  brain : ArrayGenotype;
  random_seed : Z
}.

(** *** The session

    Each collaborator keeps its rows in tables of its own, so the state
    reached through the session is the collaborators' three stores, the
    rows of table "genotype" and the counter of its auto-incremented
    primary key. *)
Context {BodyStore BrainStore SeedStore : Type}.

Record AsyncSession : Type := Build_AsyncSession {
  body_store : BodyStore;
  brain_store : BrainStore;
  seed_store : SeedStore;
  genotype_table : list DbGenotype.t;
  genotype_next_id : Z
}.

(** The flush of new rows: the database assigns consecutive primary keys,
    in the order of insertion, to the objects that have none. The objects
    of the caller's list are the inserted ones, so they carry the keys
    afterwards. *)
Fixpoint assign_ids (next : Z) (objs : list DbGenotype.t) : list DbGenotype.t :=
  match objs with
  | [] => []
  | o :: objs =>
      match DbGenotype.id o with
      | None =>
          DbGenotype.Build (Some next) (DbGenotype.body_id o)
            (DbGenotype.brain_id o) (DbGenotype.seed_id o)
          :: assign_ids (next + 1) objs
      | Some _ => o :: assign_ids next objs
      end
  end.

Definition count_new (objs : list DbGenotype.t) : Z :=
  Z.of_nat (length (filter (λ o, DbGenotype.id o = None) objs)).

(** [session.add_all(objs); await session.flush()] *)
Definition add_all_flush (session : AsyncSession) (objs : list DbGenotype.t)
    : list DbGenotype.t * AsyncSession :=
  let flushed := assign_ids (genotype_next_id session) objs in
  (flushed,
   Build_AsyncSession (body_store session) (brain_store session)
     (seed_store session)
     (genotype_table session ++ flushed)
     (genotype_next_id session + count_new objs)).

(** [select(DbGenotype).filter(DbGenotype.id.in_(ids))]: every row of the
    table whose key occurs in [ids], each row once. *)
Definition id_in (ids : list Z) (t : DbGenotype.t) : Prop :=
  from_option (λ i, i ∈ ids) False (DbGenotype.id t).

#[global] Instance id_in_dec ids t : Decision (id_in ids t).
Proof. unfold id_in. destruct (DbGenotype.id t); simpl; apply _. Defined.

Definition select_id_in (session : AsyncSession) (ids : list Z)
    : list DbGenotype.t :=
  filter (id_in ids) (genotype_table session).

(** [{t.id: t for t in rows}]: a later row replaces an earlier one with the
    same key. *)
Definition dict_by_id (rows : list DbGenotype.t)
    : gmap (option Z) DbGenotype.t :=
  foldl (λ m t, <[DbGenotype.id t := t]> m) ∅ rows.

(** [id_map[id]] *)
Definition getitem (id_map : gmap (option Z) DbGenotype.t) (id : Z)
    : result DbGenotype.t :=
  match id_map !! Some id with
  | Some t => Ok t
  | None => Raise (KeyError id)
  end.

(** *** GenotypeSerializer *)

Context (CppnwinGenotypeSerializer : Serializer.t BodyStore CppnwinGenotype).
Context (ArrayGenotypeSerializer : Serializer.t BrainStore ArrayGenotype).
(** The seeds go through the float serializer; a seed is read back as
    the number that was written, whatever its Python representation. *)
Context (FloatSerializer : Serializer.t SeedStore Z).

Definition to_database (session : AsyncSession) (objects : list Genotype)
    : result (list Z * AsyncSession) :=
  '(body_ids, bs) ← Serializer.to_database CppnwinGenotypeSerializer
                      (body_store session) (body <$> objects);
  '(brain_ids, rs) ← Serializer.to_database ArrayGenotypeSerializer
                       (brain_store session) (brain <$> objects);
  '(seed_ids, ss) ← Serializer.to_database FloatSerializer
                      (seed_store session) (random_seed <$> objects);
  let dbgenotypes :=
    zip3_with (λ body_id brain_id seed_id,
                 DbGenotype.Build None body_id brain_id seed_id)
      body_ids brain_ids seed_ids in
  let '(dbgenotypes, session) :=
    add_all_flush
      (Build_AsyncSession bs rs ss (genotype_table session)
         (genotype_next_id session))
      dbgenotypes in
  let ids := omap DbGenotype.id dbgenotypes in
  if decide (length ids = length objects)
  then Ok (ids, session)
  else Raise AssertionError.

Definition from_database (session : AsyncSession) (ids : list Z)
    : result (list Genotype) :=
  let rows := select_id_in session ids in
  if decide (length rows ≠ length ids) then Raise IncompatibleError else
  let id_map := dict_by_id rows in
  body_ids ← mapM (λ id, DbGenotype.body_id <$> getitem id_map id) ids;
  brain_ids ← mapM (λ id, DbGenotype.brain_id <$> getitem id_map id) ids;
  seed_ids ← mapM (λ id, DbGenotype.seed_id <$> getitem id_map id) ids;
  body_genotypes ← Serializer.from_database CppnwinGenotypeSerializer
                     (body_store session) body_ids;
  brain_genotypes ← Serializer.from_database ArrayGenotypeSerializer
                      (brain_store session) brain_ids;
  random_seeds ← Serializer.from_database FloatSerializer
                   (seed_store session) seed_ids;
  let genotypes :=
    zip3_with Build_Genotype body_genotypes brain_genotypes random_seeds in
  Ok genotypes.

Definition identifying_table : string := DbGenotype.__tablename__.

Definition GenotypeSerializer : Serializer.t AsyncSession Genotype :=
  Serializer.Build to_database from_database.

End Model.

Arguments Genotype : clear implicits.
Arguments AsyncSession : clear implicits.

(** ** The variation operators *)

(** The collaborators called by [random], [mutate] and [crossover], with the
    arguments the module passes. [Random] is the state of a Python
    [random.Random], [RNG] a [multineat.RNG], [InnovationDatabase] a
    [multineat.InnovationDatabase]; both are objects the callee updates, so
    a call returns the updated state next to its value. The MultiNEAT
    generator handed to a body operator is a local of the calling function
    and is dropped on return, so its final state is not returned. [Globals]
    is the state a callee can reach without being handed it (the module-level
    generators of the packages): [brain_mutation] and [brain_crossover] are
    given no random source. *)
Class Collaborators
    (CppnwinGenotype ArrayGenotype InnovationDatabase Random RNG Globals : Type)
    : Type := {
  (* rng.randint(a, b) *)
  randint : Z → Z → Random → Z * Random;
  (* multineat.RNG() *)
  multineat_RNG : RNG;
  (* multineat_rng.Seed(n) *)
  Seed : RNG → Z → RNG;
  (* body_genotype_v2.random_v1 *)
  body_random :
    InnovationDatabase → RNG → Parameters → ActivationFunction → Z →
    Globals → CppnwinGenotype * InnovationDatabase * Globals;
  (* array_genotype.random_v1 *)
  random_array_genotype :
    Z → Random → Globals → ArrayGenotype * Random * Globals;
  (* revolve2.genotypes.cppnwin.mutate_v1 *)
  mutate_v1 :
    CppnwinGenotype → Parameters → InnovationDatabase → RNG →
    Globals → CppnwinGenotype * InnovationDatabase * Globals;
  (* array_genotype_mutation.mutate *)
  brain_mutation :
    ArrayGenotype → Z → float → float → Globals → ArrayGenotype * Globals;
  (* revolve2.genotypes.cppnwin.crossover_v1 *)
  crossover_v1 :
    CppnwinGenotype → CppnwinGenotype → Parameters → RNG → bool → bool →
    Globals → CppnwinGenotype * Globals;
  (* array_genotype_crossover.crossover *)
  brain_crossover :
    ArrayGenotype → ArrayGenotype → float → bool →
    Globals → ArrayGenotype * Globals
}.

Section Variation.
Context {CppnwinGenotype ArrayGenotype InnovationDatabase Random RNG Globals : Type}.
Context `{!Collaborators CppnwinGenotype ArrayGenotype InnovationDatabase
            Random RNG Globals}.

Abbreviation Genotype := (Genotype CppnwinGenotype ArrayGenotype).

Definition _multineat_rng_from_random (rng : Random) : RNG * Random :=
  let multineat_rng := multineat_RNG in
  let '(n, rng) := randint 0 (2 ^ 31) rng in
  (Seed multineat_rng n, rng).

Definition random (innov_db_body : InnovationDatabase) (rng : Random)
    (num_initial_mutations robot_grid_size : Z) (globals : Globals)
    : Genotype * InnovationDatabase * Random * Globals :=
  let '(multineat_rng, rng) := _multineat_rng_from_random rng in
  let '(body, innov_db_body, globals) :=
    body_random innov_db_body multineat_rng _MULTINEAT_PARAMS TANH
      num_initial_mutations globals in
  let '(brain, rng, globals) :=
    random_array_genotype robot_grid_size rng globals in
  let '(random_seed, rng) := randint 1 10000 rng in
  (Build_Genotype body brain random_seed, innov_db_body, rng, globals).

(** [innov_db_brain] is a parameter the function never uses. *)
Definition mutate (genotype : Genotype)
    (innov_db_body innov_db_brain : InnovationDatabase) (rng : Random)
    (globals : Globals)
    : Genotype * InnovationDatabase * Random * Globals :=
  let '(multineat_rng, rng) := _multineat_rng_from_random rng in
  let '(new_body, innov_db_body, globals) :=
    mutate_v1 (body genotype) _MULTINEAT_PARAMS innov_db_body multineat_rng
      globals in
  let '(new_brain, globals) :=
    brain_mutation (brain genotype) 0 0.5%float 0.8%float globals in
  (Build_Genotype new_body new_brain (random_seed genotype),
   innov_db_body, rng, globals).

Definition crossover (parent1 parent2 : Genotype) (rng : Random)
    (first_best : bool) (globals : Globals)
    : Genotype * Random * Globals :=
  let '(multineat_rng, rng) := _multineat_rng_from_random rng in
  let '(body, globals) :=
    crossover_v1 (body parent1) (body parent2) _MULTINEAT_PARAMS
      multineat_rng false false globals in
  let '(brain, globals) :=
    brain_crossover (brain parent1) (brain parent2) 0.5%float first_best
      globals in
  let random_seed :=
    if first_best then random_seed parent1 else random_seed parent2 in
  (Build_Genotype body brain random_seed, rng, globals).

End Variation.

(** ** The operators on objects

    In Python a [Genotype] is an instance on the heap whose fields [body]
    and [brain] hold references to the collaborators' objects; a call
    hands references over, and a callee can write to an object it can
    reach. Here the heap maps an address to the object at it, the
    encoders are called with addresses and may change the heap, and the
    operators read the fields of their arguments when the source does:
    [genotype.brain] is read after [mutate_v1] has returned. The random
    source, the innovation database and [Globals] are threaded as before.
    An address that holds no [Genotype] makes the attribute access fail
    ([None]). *)
Module Obj.
Section Objects.
Context {CppnwinGenotype ArrayGenotype InnovationDatabase Random RNG Globals : Type}.
Context {collaborators : Collaborators CppnwinGenotype ArrayGenotype
                            InnovationDatabase Random RNG Globals}.

Inductive object : Type :=
  | GenotypeObject (body brain : positive) (random_seed : Z)
  | CppnwinObject (value : CppnwinGenotype)
  | ArrayObject (value : ArrayGenotype).

(** The six encoders, called by reference. *)
Class Encoders : Type := {
  body_random :
    InnovationDatabase → RNG → Parameters → ActivationFunction → Z →
    Globals → gmap positive object →
    positive * gmap positive object * InnovationDatabase * Globals;
  random_array_genotype :
    Z → Random → Globals → gmap positive object →
    positive * gmap positive object * Random * Globals;
  mutate_v1 :
    positive → Parameters → InnovationDatabase → RNG →
    Globals → gmap positive object →
    positive * gmap positive object * InnovationDatabase * Globals;
  brain_mutation :
    positive → Z → float → float → Globals → gmap positive object →
    positive * gmap positive object * Globals;
  crossover_v1 :
    positive → positive → Parameters → RNG → bool → bool →
    Globals → gmap positive object →
    positive * gmap positive object * Globals;
  brain_crossover :
    positive → positive → float → bool →
    Globals → gmap positive object →
    positive * gmap positive object * Globals
}.
Context {encoders : Encoders}.

(** [genotype.body], [genotype.brain], [genotype.random_seed] *)
Definition getattr_body (heap : gmap positive object) (genotype : positive)
    : option positive :=
  match heap !! genotype with
  | Some (GenotypeObject body _ _) => Some body
  | _ => None
  end.

Definition getattr_brain (heap : gmap positive object) (genotype : positive)
    : option positive :=
  match heap !! genotype with
  | Some (GenotypeObject _ brain _) => Some brain
  | _ => None
  end.

Definition getattr_random_seed (heap : gmap positive object)
    (genotype : positive) : option Z :=
  match heap !! genotype with
  | Some (GenotypeObject _ _ random_seed) => Some random_seed
  | _ => None
  end.

(** [Genotype(body, brain, random_seed)]: a new instance, at an address
    not in use. *)
Definition new_Genotype (heap : gmap positive object)
    (body brain : positive) (random_seed : Z)
    : positive * gmap positive object :=
  let address := fresh (dom heap) in
  (address, <[address := GenotypeObject body brain random_seed]> heap).

Definition random (innov_db_body : InnovationDatabase) (rng : Random)
    (num_initial_mutations robot_grid_size : Z) (globals : Globals)
    (heap : gmap positive object)
    : positive * gmap positive object
      * InnovationDatabase * Random * Globals :=
  let '(multineat_rng, rng) := _multineat_rng_from_random rng in
  let '(body, heap, innov_db_body, globals) :=
    body_random innov_db_body multineat_rng _MULTINEAT_PARAMS TANH
      num_initial_mutations globals heap in
  let '(brain, heap, rng, globals) :=
    random_array_genotype robot_grid_size rng globals heap in
  let '(random_seed, rng) := randint 1 10000 rng in
  let '(address, heap) := new_Genotype heap body brain random_seed in
  (address, heap, innov_db_body, rng, globals).

Definition mutate (genotype : positive)
    (innov_db_body innov_db_brain : InnovationDatabase) (rng : Random)
    (globals : Globals) (heap : gmap positive object)
    : option (positive * gmap positive object
              * InnovationDatabase * Random * Globals) :=
  let '(multineat_rng, rng) := _multineat_rng_from_random rng in
  body ← getattr_body heap genotype;
  let '(new_body, heap, innov_db_body, globals) :=
    mutate_v1 body _MULTINEAT_PARAMS innov_db_body multineat_rng globals
      heap in
  brain ← getattr_brain heap genotype;
  let '(new_brain, heap, globals) :=
    brain_mutation brain 0 0.5%float 0.8%float globals heap in
  random_seed ← getattr_random_seed heap genotype;
  let '(address, heap) := new_Genotype heap new_body new_brain random_seed in
  Some (address, heap, innov_db_body, rng, globals).

Definition crossover (parent1 parent2 : positive) (rng : Random)
    (first_best : bool) (globals : Globals) (heap : gmap positive object)
    : option (positive * gmap positive object * Random * Globals) :=
  let '(multineat_rng, rng) := _multineat_rng_from_random rng in
  body1 ← getattr_body heap parent1;
  body2 ← getattr_body heap parent2;
  let '(body, heap, globals) :=
    crossover_v1 body1 body2 _MULTINEAT_PARAMS multineat_rng false false
      globals heap in
  brain1 ← getattr_brain heap parent1;
  brain2 ← getattr_brain heap parent2;
  let '(brain, heap, globals) :=
    brain_crossover brain1 brain2 0.5%float first_best globals heap in
  random_seed ←
    (if first_best then getattr_random_seed heap parent1
     else getattr_random_seed heap parent2);
  let '(address, heap) := new_Genotype heap body brain random_seed in
  Some (address, heap, rng, globals).

(** The encoders leave every object that exists as it is: a call can
    only add objects to the heap. *)
Definition preserves_objects : Prop :=
  (∀ i m p a n g heap, heap ⊆ (body_random i m p a n g heap).1.1.2) ∧
  (∀ n r g heap, heap ⊆ (random_array_genotype n r g heap).1.1.2) ∧
  (∀ b p i m g heap, heap ⊆ (mutate_v1 b p i m g heap).1.1.2) ∧
  (∀ b x y z g heap, heap ⊆ (brain_mutation b x y z g heap).1.2) ∧
  (∀ b1 b2 p m x y g heap, heap ⊆ (crossover_v1 b1 b2 p m x y g heap).1.2) ∧
  (∀ b1 b2 x f g heap, heap ⊆ (brain_crossover b1 b2 x f g heap).1.2).

(** The genotype an address stands for: the values its fields lead to. *)
Definition content (heap : gmap positive object) (genotype : positive)
    : option (Genotype CppnwinGenotype ArrayGenotype) :=
  match heap !! genotype with
  | Some (GenotypeObject body brain random_seed) =>
      match heap !! body, heap !! brain with
      | Some (CppnwinObject b), Some (ArrayObject r) =>
          Some (Build_Genotype b r random_seed)
      | _, _ => None
      end
  | _ => None
  end.
End Objects.

Arguments object : clear implicits.
Arguments Encoders : clear implicits.
Arguments preserves_objects {_ _ _ _ _ _} _.
End Obj.

(** Encoders that never write to an existing object: each reads the values
    of its arguments, computes as the by-value collaborator does and puts
    the result in a new object. *)
Section Allocating.
Context {CppnwinGenotype ArrayGenotype InnovationDatabase Random RNG Globals : Type}.
Context {collaborators : Collaborators CppnwinGenotype ArrayGenotype
                            InnovationDatabase Random RNG Globals}.

Definition new_object
    (heap : gmap positive (Obj.object CppnwinGenotype ArrayGenotype))
    (o : Obj.object CppnwinGenotype ArrayGenotype)
    : positive * gmap positive (Obj.object CppnwinGenotype ArrayGenotype) :=
  let address := fresh (dom heap) in (address, <[address := o]> heap).

Definition allocating_encoders
    : Obj.Encoders CppnwinGenotype ArrayGenotype InnovationDatabase Random
        RNG Globals := {|
  Obj.body_random innov_db multineat_rng params activation n globals heap :=
    let '(v, innov_db, globals) :=
      body_random innov_db multineat_rng params activation n globals in
    (new_object heap (Obj.CppnwinObject v), innov_db, globals);
  Obj.random_array_genotype size rng globals heap :=
    let '(v, rng, globals) := random_array_genotype size rng globals in
    (new_object heap (Obj.ArrayObject v), rng, globals);
  Obj.mutate_v1 genotype params innov_db multineat_rng globals heap :=
    match heap !! genotype with
    | Some (Obj.CppnwinObject v) =>
        let '(v, innov_db, globals) :=
          mutate_v1 v params innov_db multineat_rng globals in
        (new_object heap (Obj.CppnwinObject v), innov_db, globals)
    | _ => (genotype, heap, innov_db, globals)
    end;
  Obj.brain_mutation genotype p q r globals heap :=
    match heap !! genotype with
    | Some (Obj.ArrayObject v) =>
        let '(v, globals) := brain_mutation v p q r globals in
        (new_object heap (Obj.ArrayObject v), globals)
    | _ => (genotype, heap, globals)
    end;
  Obj.crossover_v1 parent1 parent2 params multineat_rng a b globals heap :=
    match heap !! parent1, heap !! parent2 with
    | Some (Obj.CppnwinObject v1), Some (Obj.CppnwinObject v2) =>
        let '(v, globals) :=
          crossover_v1 v1 v2 params multineat_rng a b globals in
        (new_object heap (Obj.CppnwinObject v), globals)
    | _, _ => (parent1, heap, globals)
    end;
  Obj.brain_crossover parent1 parent2 ratio first_best globals heap :=
    match heap !! parent1, heap !! parent2 with
    | Some (Obj.ArrayObject v1), Some (Obj.ArrayObject v2) =>
        let '(v, globals) := brain_crossover v1 v2 ratio first_best globals in
        (new_object heap (Obj.ArrayObject v), globals)
    | _, _ => (parent1, heap, globals)
    end
|}.

(** The same encoders, except that the brain mutation overwrites the
    object it was handed and returns it. *)
Definition overwriting_encoders
    : Obj.Encoders CppnwinGenotype ArrayGenotype InnovationDatabase Random
        RNG Globals := {|
  Obj.body_random := Obj.body_random (Encoders := allocating_encoders);
  Obj.random_array_genotype :=
    Obj.random_array_genotype (Encoders := allocating_encoders);
  Obj.mutate_v1 := Obj.mutate_v1 (Encoders := allocating_encoders);
  Obj.brain_mutation genotype p q r globals heap :=
    match heap !! genotype with
    | Some (Obj.ArrayObject v) =>
        let '(v, globals) := brain_mutation v p q r globals in
        (genotype, <[genotype := Obj.ArrayObject v]> heap, globals)
    | _ => (genotype, heap, globals)
    end;
  Obj.crossover_v1 := Obj.crossover_v1 (Encoders := allocating_encoders);
  Obj.brain_crossover :=
    Obj.brain_crossover (Encoders := allocating_encoders)
|}.
End Allocating.

(** ** Contracts of the collaborating serializers *)

(** A serializer returns one id per object it was given. *)
Definition one_id_per_object {Store T : Type} (S : Serializer.t Store T) : Prop :=
  ∀ st vs ids st',
    Serializer.to_database S st vs = Ok (ids, st') → length ids = length vs.

(** Round trip and order preservation, on the stores that satisfy [inv]: a
    write succeeds, keeps [inv], returns one id per object, and reading the
    returned ids back yields the written objects in the order written. *)
Definition round_trip {Store T : Type} (S : Serializer.t Store T)
    (inv : Store → Prop) : Prop :=
  ∀ st vs, inv st →
    ∃ ids st',
      Serializer.to_database S st vs = Ok (ids, st') ∧
      length ids = length vs ∧
      inv st' ∧
      Serializer.from_database S st' ids = Ok vs.

(** Writes do not disturb what was stored: a batch that could be read before
    a write reads the same after it. *)
Definition reads_stable {Store T : Type} (S : Serializer.t Store T) : Prop :=
  ∀ st vs new_ids st' ids r,
    Serializer.to_database S st vs = Ok (new_ids, st') →
    Serializer.from_database S st ids = Ok r →
    Serializer.from_database S st' ids = Ok r.

(** A serializer reads back one object per requested id. *)
Definition one_object_per_id {Store T : Type} (S : Serializer.t Store T) : Prop :=
  ∀ st ids vs,
    Serializer.from_database S st ids = Ok vs → length vs = length ids.

(** ** Well-formed "genotype" table

    The primary key is not null, unique and auto-incremented: every row has
    a key, below the counter, and no two rows share one. *)
Definition key_below (next : Z) (t : DbGenotype.t) : Prop :=
  from_option (λ i, i < next) False (DbGenotype.id t).

#[global] Instance key_below_dec next t : Decision (key_below next t).
Proof. unfold key_below. destruct (DbGenotype.id t); simpl; apply _. Defined.

Definition table_ok (table : list DbGenotype.t) (next : Z) : Prop :=
  Forall (key_below next) table ∧ NoDup (DbGenotype.id <$> table).

#[global] Instance table_ok_dec table next : Decision (table_ok table next).
Proof. unfold table_ok. apply _. Defined.

(** The requested id has a row in the table. *)
Definition stored (table : list DbGenotype.t) (i : Z) : Prop :=
  Some i ∈ DbGenotype.id <$> table.

#[global] Instance stored_dec table i : Decision (stored table i).
Proof. unfold stored. apply _. Defined.

(** A session in which the collaborators' stores satisfy their invariants
    and table "genotype" is well formed. *)
Definition session_ok {BodyStore BrainStore SeedStore : Type}
    (inv_body : BodyStore → Prop) (inv_brain : BrainStore → Prop)
    (inv_seed : SeedStore → Prop)
    (session : AsyncSession BodyStore BrainStore SeedStore) : Prop :=
  inv_body (body_store session) ∧
  inv_brain (brain_store session) ∧
  inv_seed (seed_store session) ∧
  table_ok (genotype_table session) (genotype_next_id session).

(** ** Reference collaborators

    Small executable collaborators, used to run the model on concrete
    inputs. *)
Module Reference.

(** A store that keeps the objects in a list; the id of an object is its
    position. Reading an id that was never assigned is an
    [IncompatibleError]. *)
Definition list_to_database {T : Type} (st : list T) (vs : list T)
    : result (list Z * list T) :=
  Ok (seqZ (Z.of_nat (length st)) (Z.of_nat (length vs)), st ++ vs).

Definition list_from_database {T : Type} (st : list T) (ids : list Z)
    : result (list T) :=
  mapM (λ i,
          if decide (0 ≤ i)
          then match st !! Z.to_nat i with
               | Some v => Ok v
               | None => Raise IncompatibleError
               end
          else Raise IncompatibleError) ids.

Definition ListSerializer (T : Type) : Serializer.t (list T) T :=
  Serializer.Build list_to_database list_from_database.

(** A serializer that reports one id too few. *)
Definition ShortSerializer (T : Type) : Serializer.t (list T) T :=
  Serializer.Build
    (λ st vs, Ok (seqZ (Z.of_nat (length st)) (Z.of_nat (length vs) - 1),
                  st ++ vs))
    list_from_database.

(** A serializer that reads back one object too few. *)
Definition ShortReader (T : Type) : Serializer.t (list T) T :=
  Serializer.Build list_to_database
    (λ st ids, (λ vs, take (length vs - 1) vs) <$> list_from_database st ids).

(** Encoders over lists of integers: a body or brain records the calls
    that produced it. The generator is a linear congruential one. *)
#[global] Instance collaborators
    : Collaborators (list Z) (list Z) Z Z Z Z := {|
  randint a b rng :=
    (a + rng `mod` (b - a + 1), (1103515245 * rng + 12345) `mod` 2 ^ 31);
  multineat_RNG := 0;
  Seed _ n := n;
  body_random innov_db multineat_rng _ _ num_mutations globals :=
    ([multineat_rng; num_mutations], innov_db + num_mutations, globals);
  random_array_genotype size rng globals :=
    ([size; rng], (1103515245 * rng + 12345) `mod` 2 ^ 31, globals);
  mutate_v1 genotype _ innov_db multineat_rng globals :=
    (multineat_rng :: genotype, innov_db + 1, globals);
  brain_mutation genotype _ _ _ globals :=
    (globals :: genotype, globals + 1);
  crossover_v1 parent1 parent2 _ multineat_rng _ _ globals :=
    (multineat_rng :: parent1 ++ parent2, globals);
  brain_crossover parent1 parent2 _ first_best globals :=
    (globals :: (if first_best then parent1 else parent2), globals + 1)
|}.

Definition session0 : AsyncSession (list (list Z)) (list (list Z)) (list Z) :=
  Build_AsyncSession [] [] [] [] 1.

Definition g1 : Genotype (list Z) (list Z) := Build_Genotype [1; 2] [3] 42.
Definition g2 : Genotype (list Z) (list Z) := Build_Genotype [4] [5; 6] 7.

(** The session after [g1] and [g2] were written to [session0]: they are
    stored under the ids 1 and 2. *)
Definition session2 : AsyncSession (list (list Z)) (list (list Z)) (list Z) :=
  Build_AsyncSession [[1; 2]; [4]] [[3]; [5; 6]] [42; 7]
    [DbGenotype.Build (Some 1) 0 0 0; DbGenotype.Build (Some 2) 1 1 1] 3.

(** A heap with the instance [g1] at address 1 and [g2] at address 4. *)
Definition heap0 : gmap positive (Obj.object (list Z) (list Z)) :=
  {[ 1%positive := Obj.GenotypeObject 2 3 42;
     2%positive := Obj.CppnwinObject [1; 2];
     3%positive := Obj.ArrayObject [3];
     4%positive := Obj.GenotypeObject 5 6 7;
     5%positive := Obj.CppnwinObject [4];
     6%positive := Obj.ArrayObject [5; 6] ]}.

End Reference.

(** * Proofs *)

(** ** The result monad and the three-way zip *)

Section ResultMonad.
Context {A B : Type}.

Lemma mapM_Ok_Forall2 (f : A → result B) (l : list A) (k : list B) :
  Forall2 (λ x y, f x = Ok y) l k → mapM f l = Ok k.
Proof.
  induction 1 as [|x y l k Hxy _ IH]; [done|].
  cbn. rewrite Hxy. cbn. rewrite IH. done.
Qed.

Lemma mapM_Ok_inv (f : A → result B) (l : list A) (k : list B) :
  mapM f l = Ok k → Forall2 (λ x y, f x = Ok y) l k.
Proof.
  revert k. induction l as [|x l IH]; intros k; cbn.
  - intros [= <-]. constructor.
  - destruct (f x) as [y|e] eqn:Hx; cbn; [|done].
    destruct (mapM f l) as [k'|e] eqn:Hl; cbn; [|done].
    intros [= <-]. constructor; auto.
Qed.
End ResultMonad.

Section Zip3.
Context {A B C D : Type} (f : A → B → C → D).

Lemma length_zip3_with l1 l2 l3 :
  length l2 = length l1 → length l3 = length l1 →
  length (zip3_with f l1 l2 l3) = length l1.
Proof.
  revert l2 l3. induction l1 as [|a l1 IH]; intros [|b l2] [|c l3]; cbn; try done.
  intros [=] [=]. f_equal. auto.
Qed.

Lemma fmap_zip3_with {E} (p : D → E) (q : A → B → C → E) l1 l2 l3 :
  (∀ a b c, p (f a b c) = q a b c) →
  p <$> zip3_with f l1 l2 l3 = zip3_with q l1 l2 l3.
Proof.
  intros Hp. revert l2 l3.
  induction l1 as [|a l1 IH]; intros [|b l2] [|c l3]; cbn; try done.
  rewrite Hp. f_equal. apply IH.
Qed.
End Zip3.

Lemma zip3_with_fst {A B C} (l1 : list A) (l2 : list B) (l3 : list C) :
  length l2 = length l1 → length l3 = length l1 →
  zip3_with (λ a _ _, a) l1 l2 l3 = l1.
Proof.
  revert l2 l3. induction l1 as [|a l1 IH]; intros [|b l2] [|c l3]; cbn; try done.
  intros [=] [=]. f_equal. auto.
Qed.

Lemma zip3_with_snd {A B C} (l1 : list A) (l2 : list B) (l3 : list C) :
  length l2 = length l1 → length l3 = length l1 →
  zip3_with (λ _ b _, b) l1 l2 l3 = l2.
Proof.
  revert l2 l3. induction l1 as [|a l1 IH]; intros [|b l2] [|c l3]; cbn; try done.
  intros [=] [=]. f_equal. auto.
Qed.

Lemma zip3_with_thd {A B C} (l1 : list A) (l2 : list B) (l3 : list C) :
  length l2 = length l1 → length l3 = length l1 →
  zip3_with (λ _ _ c, c) l1 l2 l3 = l3.
Proof.
  revert l2 l3. induction l1 as [|a l1 IH]; intros [|b l2] [|c l3]; cbn; try done.
  intros [=] [=]. f_equal. auto.
Qed.

Lemma zip3_with_fmap_Genotype {X Y} (L : list (Genotype X Y)) :
  zip3_with Build_Genotype (body <$> L) (brain <$> L) (random_seed <$> L) = L.
Proof. induction L as [|[b r s] L IH]; cbn; [done|]. by rewrite IH. Qed.

(** ** The flush *)

Lemma zip3_with_unsaved (bs rs ss : list Z) :
  Forall (λ o, DbGenotype.id o = None)
    (zip3_with (λ b r s, DbGenotype.Build None b r s) bs rs ss).
Proof.
  revert rs ss. induction bs as [|b bs IH]; intros [|r rs] [|s ss]; cbn;
    constructor; auto.
Qed.

Lemma assign_ids_keys next objs :
  Forall (λ o, DbGenotype.id o = None) objs →
  DbGenotype.id <$> assign_ids next objs
  = Some <$> seqZ next (Z.of_nat (length objs)).
Proof.
  intros H. revert next. induction H as [|o objs Ho _ IH]; intros next; [done|].
  cbn [assign_ids length]. rewrite Ho.
  rewrite (seqZ_cons next) by lia. cbn. f_equal.
  rewrite IH. do 2 f_equal; lia.
Qed.

Lemma assign_ids_fmap {X} (p : DbGenotype.t → X) next objs :
  (∀ i b r s, p (DbGenotype.Build i b r s) = p (DbGenotype.Build None b r s)) →
  p <$> assign_ids next objs = p <$> objs.
Proof.
  intros Hp. revert next. induction objs as [|[i b r s] objs IH]; intros next; [done|].
  cbn [assign_ids]. destruct i as [i|]; cbn [DbGenotype.id]; cbn.
  - by rewrite IH.
  - rewrite IH. f_equal. cbn. apply (Hp (Some next)).
Qed.

Lemma count_new_unsaved objs :
  Forall (λ o, DbGenotype.id o = None) objs →
  count_new objs = Z.of_nat (length objs).
Proof.
  intros H. unfold count_new. f_equal.
  induction H as [|o objs Ho _ IH]; [done|].
  rewrite filter_cons_True by done. cbn. by rewrite IH.
Qed.

Lemma omap_Some_fmap {X Y} (f : X → option Y) (l : list X) (k : list Y) :
  f <$> l = Some <$> k → omap f l = k.
Proof.
  revert k. induction l as [|x l IH]; intros [|y k]; cbn; try done.
  intros [= Hx Hl]. rewrite Hx. f_equal. auto.
Qed.

(** ** The select *)

Lemma select_none ids next table :
  Forall (key_below next) table →
  Forall (λ i, next ≤ i) ids →
  filter (id_in ids) table = [].
Proof.
  intros Ht Hids. induction Ht as [|t table Hk _ IH]; [done|].
  rewrite filter_cons_False; [done|].
  unfold id_in, key_below in *. destruct (DbGenotype.id t) as [i|]; cbn in *; [|done].
  intros Hi. rewrite Forall_forall in Hids. specialize (Hids _ Hi). lia.
Qed.

Lemma select_all ids rows :
  DbGenotype.id <$> rows = Some <$> ids →
  filter (id_in ids) rows = rows.
Proof.
  intros H.
  assert (Forall (id_in ids) rows) as Hall.
  { apply Forall_forall. intros t Ht.
    assert (DbGenotype.id t ∈ Some <$> ids) as Hin.
    { rewrite <- H. by apply list_elem_of_fmap_2. }
    apply list_elem_of_fmap in Hin as (i & Hi & Hin).
    unfold id_in. rewrite Hi. done. }
  clear H. induction Hall as [|t rows Ht _ IH]; [done|].
  rewrite filter_cons_True by done. by rewrite IH.
Qed.

(** ** The dictionary *)

Lemma dict_by_id_foldl_notin (rows : list DbGenotype.t)
    (m : gmap (option Z) DbGenotype.t) k :
  k ∉ DbGenotype.id <$> rows →
  foldl (λ m t, <[DbGenotype.id t := t]> m) m rows !! k = m !! k.
Proof.
  revert m. induction rows as [|t rows IH]; intros m Hk; [done|].
  cbn in *. rewrite not_elem_of_cons in Hk. destruct Hk as [Hne Hk].
  rewrite IH by done. by rewrite lookup_insert_ne.
Qed.

Lemma dict_by_id_foldl_in (rows : list DbGenotype.t)
    (m : gmap (option Z) DbGenotype.t) t :
  NoDup (DbGenotype.id <$> rows) → t ∈ rows →
  foldl (λ m t, <[DbGenotype.id t := t]> m) m rows !! DbGenotype.id t = Some t.
Proof.
  revert m. induction rows as [|a rows IH]; intros m Hnd Ht.
  - by apply elem_of_nil in Ht.
  - cbn in *. apply NoDup_cons in Hnd as [Ha Hnd].
    apply elem_of_cons in Ht as [->|Ht].
    + rewrite dict_by_id_foldl_notin by done. by rewrite lookup_insert_eq.
    + by apply IH.
Qed.

Lemma dict_by_id_lookup rows t :
  NoDup (DbGenotype.id <$> rows) → t ∈ rows →
  dict_by_id rows !! DbGenotype.id t = Some t.
Proof. apply dict_by_id_foldl_in. Qed.

Lemma getitem_rows {X} (p : DbGenotype.t → X) rows l ids :
  NoDup (DbGenotype.id <$> rows) →
  l ⊆ rows →
  DbGenotype.id <$> l = Some <$> ids →
  mapM (λ i, p <$> getitem (dict_by_id rows) i) ids = Ok (p <$> l).
Proof.
  intros Hnd Hsub Hkeys. apply mapM_Ok_Forall2.
  revert ids Hkeys. induction l as [|t l IH]; intros [|i ids]; cbn; try done.
  intros [= Ht Hl]. constructor.
  - unfold getitem. rewrite <- Ht.
    rewrite dict_by_id_lookup; [done|done|]. apply Hsub. by left.
  - apply IH; [|done]. intros x Hx. apply Hsub. by right.
Qed.

(** ** Rows and keys of a well-formed table *)

Lemma table_ok_keys table next :
  Forall (key_below next) table →
  ∃ keys, DbGenotype.id <$> table = Some <$> keys ∧ Forall (λ i, i < next) keys.
Proof.
  induction 1 as [|t table Ht _ (keys & Hk & Hlt)].
  - exists []. split; [done|constructor].
  - unfold key_below in Ht. destruct (DbGenotype.id t) as [i|] eqn:Hi; [|done].
    exists (i :: keys). split; [cbn; by rewrite Hi, Hk|by constructor].
Qed.

Lemma NoDup_fmap_filter {X Y} (f : X → Y) (P : X → Prop)
    `{!∀ x, Decision (P x)} (l : list X) :
  NoDup (f <$> l) → NoDup (f <$> filter P l).
Proof.
  intros Hnd. apply (sublist_NoDup (f <$> filter P l) (f <$> l)); [done|].
  apply fmap_sublist, sublist_filter.
Qed.

Lemma stored_selected table ids i :
  i ∈ ids → stored table i →
  ∃ t, t ∈ filter (id_in ids) table ∧ DbGenotype.id t = Some i.
Proof.
  intros Hi Hs. unfold stored in Hs.
  apply list_elem_of_fmap in Hs as (t & Ht & Hin).
  exists t. split; [|done]. apply list_elem_of_filter. split; [|done].
  unfold id_in. by rewrite <- Ht.
Qed.

Lemma selected_requested (table : list DbGenotype.t) ids t :
  t ∈ filter (id_in ids) table →
  t ∈ table ∧ ∃ i, DbGenotype.id t = Some i ∧ i ∈ ids.
Proof.
  intros H. apply list_elem_of_filter in H as [Hin Ht]. split; [done|].
  unfold id_in in Hin. destruct (DbGenotype.id t) as [i|]; [|done]. eauto.
Qed.

(** The row count of the select equals the length of the request exactly
    when the request has no duplicate and every requested id is stored. *)
Lemma select_count_iff table next ids :
  table_ok table next →
  length (filter (id_in ids) table) = length ids
  ↔ NoDup ids ∧ Forall (stored table) ids.
Proof.
  intros [Hkeys Hnd].
  set (rows := filter (id_in ids) table).
  assert (Forall (key_below next) rows) as Hrows.
  { apply Forall_forall. intros t Ht. apply selected_requested in Ht as [Ht _].
    rewrite Forall_forall in Hkeys. auto. }
  destruct (table_ok_keys _ _ Hrows) as (keys & Hk & _).
  assert (NoDup keys) as Hndk.
  { apply (NoDup_fmap_1 Some). rewrite <- Hk. by apply NoDup_fmap_filter. }
  assert (length rows = length keys) as Hlen.
  { rewrite <- (length_fmap DbGenotype.id), Hk. apply length_fmap. }
  assert (∀ i, i ∈ keys → i ∈ ids ∧ stored table i) as Hsub.
  { intros i Hi.
    assert (Some i ∈ DbGenotype.id <$> rows) as Hin.
    { rewrite Hk. by apply list_elem_of_fmap_2. }
    apply list_elem_of_fmap in Hin as (t & Ht & Hin).
    apply selected_requested in Hin as (Hin & j & Hj & Hjin).
    assert (i = j) as -> by congruence.
    split; [done|]. unfold stored. rewrite <- Hj. by apply list_elem_of_fmap_2. }
  assert (∀ i, i ∈ ids → stored table i → i ∈ keys) as Hsup.
  { intros i Hi Hs. destruct (stored_selected _ _ _ Hi Hs) as (t & Ht & Hid).
    apply (list_elem_of_fmap_2 DbGenotype.id) in Ht.
    fold rows in Ht. rewrite Hk, Hid in Ht.
    apply list_elem_of_fmap in Ht as (j & [= ->] & Hj). done. }
  rewrite Hlen. split.
  - intros Heq.
    assert (keys ≡ₚ ids) as Hperm.
    { apply submseteq_length_Permutation; [|lia].
      apply NoDup_submseteq; [done|]. intros i Hi. by apply Hsub. }
    split; [by rewrite <- Hperm|].
    apply Forall_forall. intros i Hi. rewrite <- Hperm in Hi. by apply Hsub.
  - intros [Hndi Hst]. rewrite Forall_forall in Hst.
    apply Permutation_length, NoDup_Permutation; [done|done|].
    intros i. split; [apply Hsub|]. intros Hi. apply Hsup; auto.
Qed.

(** The rows answering a request without duplicates, in request order. *)
Lemma request_rows (table : list DbGenotype.t) ids :
  Forall (stored table) ids →
  ∃ rows,
    rows ⊆ filter (id_in ids) table ∧
    DbGenotype.id <$> rows = Some <$> ids.
Proof.
  intros Hst.
  assert (∀ l, l ⊆ ids → ∃ rows, rows ⊆ filter (id_in ids) table ∧
            DbGenotype.id <$> rows = Some <$> l) as H.
  { induction l as [|i l IH]; intros Hl.
    - exists []. split; [apply list_subseteq_nil|done].
    - destruct IH as (rows & Hsub & Hk).
      { intros x Hx. apply Hl. by right. }
      assert (i ∈ ids) as Hi by (apply Hl; by left).
      rewrite Forall_forall in Hst.
      destruct (stored_selected _ _ _ Hi (Hst _ Hi)) as (t & Ht & Hid).
      exists (t :: rows). split.
      + intros x Hx. apply elem_of_cons in Hx as [->|Hx]; auto.
      + cbn. by rewrite Hid, Hk. }
  by apply H.
Qed.

Section Persistence.
Context {CppnwinGenotype ArrayGenotype BodyStore BrainStore SeedStore : Type}.
Context (CppnwinGenotypeSerializer : Serializer.t BodyStore CppnwinGenotype).
Context (ArrayGenotypeSerializer : Serializer.t BrainStore ArrayGenotype).
Context (FloatSerializer : Serializer.t SeedStore Z).

Abbreviation Genotype := (Genotype CppnwinGenotype ArrayGenotype).
Abbreviation AsyncSession := (AsyncSession BodyStore BrainStore SeedStore).
Abbreviation genotypes_to_database :=
  (to_database CppnwinGenotypeSerializer ArrayGenotypeSerializer
     FloatSerializer).
Abbreviation genotypes_from_database :=
  (from_database CppnwinGenotypeSerializer ArrayGenotypeSerializer
     FloatSerializer).
Abbreviation new_row :=
  (λ body_id brain_id seed_id : Z,
     DbGenotype.Build None body_id brain_id seed_id).

(** What [to_database] returns once the three collaborators have returned
    one id per object. *)
Lemma to_database_Ok (session : AsyncSession) (L : list Genotype)
    body_ids bs brain_ids rs seed_ids ss :
  Serializer.to_database CppnwinGenotypeSerializer (body_store session)
    (body <$> L) = Ok (body_ids, bs) →
  Serializer.to_database ArrayGenotypeSerializer (brain_store session)
    (brain <$> L) = Ok (brain_ids, rs) →
  Serializer.to_database FloatSerializer (seed_store session)
    (random_seed <$> L) = Ok (seed_ids, ss) →
  length body_ids = length L →
  length brain_ids = length L →
  length seed_ids = length L →
  genotypes_to_database session L
  = Ok (seqZ (genotype_next_id session) (Z.of_nat (length L)),
        Build_AsyncSession bs rs ss
          (genotype_table session
           ++ assign_ids (genotype_next_id session)
                (zip3_with new_row body_ids brain_ids seed_ids))
          (genotype_next_id session + Z.of_nat (length L))).
Proof.
  intros Hb Hr Hs Lb Lr Ls. unfold to_database.
  rewrite Hb, Hr, Hs. cbn.
  pose proof (zip3_with_unsaved body_ids brain_ids seed_ids) as Hnew.
  assert (length (zip3_with new_row body_ids brain_ids seed_ids) = length L)
    as Hlen.
  { rewrite length_zip3_with; congruence. }
  rewrite (omap_Some_fmap _ _ _ (assign_ids_keys _ _ Hnew)).
  rewrite count_new_unsaved by done. rewrite Hlen.
  rewrite decide_True; [done|].
  rewrite length_seqZ. lia.
Qed.

(** Either a collaborator's write raised, or all three returned. *)
Lemma to_database_writes (session : AsyncSession) (L : list Genotype) :
  (∃ e,
      genotypes_to_database session L = Raise e ∧
      (Serializer.to_database CppnwinGenotypeSerializer
         (body_store session) (body <$> L) = Raise e
       ∨ Serializer.to_database ArrayGenotypeSerializer
           (brain_store session) (brain <$> L) = Raise e
       ∨ Serializer.to_database FloatSerializer
           (seed_store session) (random_seed <$> L) = Raise e))
  ∨ (∃ body_ids bs brain_ids rs seed_ids ss,
        Serializer.to_database CppnwinGenotypeSerializer
          (body_store session) (body <$> L) = Ok (body_ids, bs) ∧
        Serializer.to_database ArrayGenotypeSerializer
          (brain_store session) (brain <$> L) = Ok (brain_ids, rs) ∧
        Serializer.to_database FloatSerializer
          (seed_store session) (random_seed <$> L) = Ok (seed_ids, ss)).
Proof.
  unfold to_database.
  destruct (Serializer.to_database CppnwinGenotypeSerializer _ _)
    as [[body_ids bs]|e]; [|left; exists e; cbn; auto].
  destruct (Serializer.to_database ArrayGenotypeSerializer _ _)
    as [[brain_ids rs]|e]; [|left; exists e; cbn; auto].
  destruct (Serializer.to_database FloatSerializer _ _)
    as [[seed_ids ss]|e]; [|left; exists e; cbn; auto].
  right. eauto 10.
Qed.

(** [from_database] once its row count check passes: [rows] are the
    selected rows in request order. *)
Lemma from_database_resolved (session : AsyncSession) ids rows :
  NoDup (DbGenotype.id <$> select_id_in session ids) →
  length (select_id_in session ids) = length ids →
  rows ⊆ select_id_in session ids →
  DbGenotype.id <$> rows = Some <$> ids →
  genotypes_from_database session ids
  = (body_genotypes ← Serializer.from_database CppnwinGenotypeSerializer
                        (body_store session) (DbGenotype.body_id <$> rows);
     brain_genotypes ← Serializer.from_database ArrayGenotypeSerializer
                         (brain_store session) (DbGenotype.brain_id <$> rows);
     random_seeds ← Serializer.from_database FloatSerializer
                      (seed_store session) (DbGenotype.seed_id <$> rows);
     Ok (zip3_with Build_Genotype body_genotypes brain_genotypes
           random_seeds)).
Proof.
  intros Hnd Hlen Hsub Hkeys. unfold from_database.
  rewrite decide_False by (intros Hne; by apply Hne).
  rewrite !(getitem_rows _ _ rows ids) by done. done.
Qed.

Lemma from_database_count (session : AsyncSession) ids :
  length (select_id_in session ids) ≠ length ids →
  genotypes_from_database session ids = Raise IncompatibleError.
Proof. intros H. unfold from_database. by rewrite decide_True. Qed.

Lemma from_database_Ok_count (session : AsyncSession) ids gs :
  genotypes_from_database session ids = Ok gs →
  length (select_id_in session ids) = length ids.
Proof.
  intros H. destruct (decide (length (select_id_in session ids) = length ids))
    as [|Hne]; [done|].
  by rewrite from_database_count in H.
Qed.

Lemma from_database_stored (session : AsyncSession) ids :
  table_ok (genotype_table session) (genotype_next_id session) →
  NoDup ids → Forall (stored (genotype_table session)) ids →
  ∃ rows,
    rows ⊆ genotype_table session ∧
    DbGenotype.id <$> rows = Some <$> ids ∧
    genotypes_from_database session ids
    = (body_genotypes ← Serializer.from_database CppnwinGenotypeSerializer
                          (body_store session) (DbGenotype.body_id <$> rows);
       brain_genotypes ← Serializer.from_database ArrayGenotypeSerializer
                           (brain_store session) (DbGenotype.brain_id <$> rows);
       random_seeds ← Serializer.from_database FloatSerializer
                        (seed_store session) (DbGenotype.seed_id <$> rows);
       Ok (zip3_with Build_Genotype body_genotypes brain_genotypes
             random_seeds)).
Proof.
  intros Hok Hnd Hst.
  destruct (request_rows _ _ Hst) as (rows & Hsub & Hkeys).
  exists rows. split; [|split; [done|]].
  - intros t Ht. apply Hsub in Ht. by apply selected_requested in Ht as [? _].
  - apply from_database_resolved; [|by eapply select_count_iff|done|done].
    apply NoDup_fmap_filter, Hok.
Qed.

Lemma length_zip3_with_Genotype (bs : list CppnwinGenotype)
    (rs : list ArrayGenotype) (ss : list Z) (n : nat) :
  length bs = n → length rs = n → length ss = n →
  length (zip3_with Build_Genotype bs rs ss) = n.
Proof. intros <- Hr Hs. by apply length_zip3_with. Qed.

Lemma from_database_length (session : AsyncSession) ids gs :
  one_object_per_id CppnwinGenotypeSerializer →
  one_object_per_id ArrayGenotypeSerializer →
  one_object_per_id FloatSerializer →
  genotypes_from_database session ids = Ok gs → length gs = length ids.
Proof.
  intros Hb Hr Hs. unfold from_database.
  destruct (decide _) as [|_]; [done|].
  destruct (mapM (λ id, DbGenotype.body_id <$> _) ids)
    as [body_ids|] eqn:Eb; cbn; [|done].
  destruct (mapM (λ id, DbGenotype.brain_id <$> _) ids)
    as [brain_ids|] eqn:Er; cbn; [|done].
  destruct (mapM (λ id, DbGenotype.seed_id <$> _) ids)
    as [seed_ids|] eqn:Es; cbn; [|done].
  apply mapM_Ok_inv, Forall2_length in Eb, Er, Es.
  destruct (Serializer.from_database CppnwinGenotypeSerializer _ _)
    as [bg|] eqn:Fb; cbn; [|done].
  destruct (Serializer.from_database ArrayGenotypeSerializer _ _)
    as [rg|] eqn:Fr; cbn; [|done].
  destruct (Serializer.from_database FloatSerializer _ _)
    as [sg|] eqn:Fs; cbn; [|done].
  intros [= <-]. apply Hb in Fb. apply Hr in Fr. apply Hs in Fs.
  apply length_zip3_with_Genotype; congruence.
Qed.

(** *** The table stays well formed *)

Lemma key_below_keys rows keys bound :
  DbGenotype.id <$> rows = Some <$> keys →
  Forall (λ i, i < bound) keys →
  Forall (key_below bound) rows.
Proof.
  revert keys. induction rows as [|t rows IH]; intros [|i keys]; cbn; try done.
  intros [= Ht Hk] Hlt. apply Forall_cons in Hlt as [Hi Hlt].
  constructor; [|by eapply IH]. unfold key_below. by rewrite Ht.
Qed.

Lemma table_ok_flush table next (objs : list DbGenotype.t) :
  table_ok table next →
  Forall (λ o, DbGenotype.id o = None) objs →
  table_ok (table ++ assign_ids next objs)
    (next + Z.of_nat (length objs)).
Proof.
  intros [Hkeys Hnd] Hnew.
  pose proof (assign_ids_keys next objs Hnew) as Hk. split.
  - apply Forall_app. split.
    + eapply Forall_impl; [done|]. intros t. unfold key_below.
      destruct (DbGenotype.id t); cbn; [lia|done].
    + eapply key_below_keys; [done|].
      apply Forall_forall. intros i Hi. apply elem_of_seqZ in Hi. lia.
  - rewrite fmap_app. apply NoDup_app. split; [done|]. split.
    + intros k Hold Hin. rewrite Hk in Hin.
      apply list_elem_of_fmap in Hin as (i & -> & Hi).
      apply elem_of_seqZ in Hi.
      apply list_elem_of_fmap in Hold as (t & Ht & Hin).
      rewrite Forall_forall in Hkeys. specialize (Hkeys _ Hin).
      unfold key_below in Hkeys. rewrite <- Ht in Hkeys. cbn in Hkeys. lia.
    + rewrite Hk. apply (NoDup_fmap_2 Some), NoDup_seqZ.
Qed.

(** *** The composite serializer satisfies the collaborators' contract *)

Lemma GenotypeSerializer_round_trip
    (inv_body : BodyStore → Prop) (inv_brain : BrainStore → Prop)
    (inv_seed : SeedStore → Prop) :
  round_trip CppnwinGenotypeSerializer inv_body →
  round_trip ArrayGenotypeSerializer inv_brain →
  round_trip FloatSerializer inv_seed →
  round_trip
    (GenotypeSerializer CppnwinGenotypeSerializer ArrayGenotypeSerializer
       FloatSerializer)
    (session_ok inv_body inv_brain inv_seed).
Proof.
  intros Hb Hr Hs session L (Ib & Ir & Is & Hok).
  destruct (Hb _ (body <$> L) Ib) as (body_ids & bs & Eb & Lb & Ib' & Fb).
  destruct (Hr _ (brain <$> L) Ir) as (brain_ids & rs & Er & Lr & Ir' & Fr).
  destruct (Hs _ (random_seed <$> L) Is) as (seed_ids & ss & Es & Ls & Is' & Fs).
  rewrite length_fmap in Lb. rewrite length_fmap in Lr.
  rewrite length_fmap in Ls.
  set (next := genotype_next_id session) in *.
  set (objs := zip3_with new_row body_ids brain_ids seed_ids).
  set (new := assign_ids next objs).
  set (ids := seqZ next (Z.of_nat (length L))).
  assert (Forall (λ o, DbGenotype.id o = None) objs) as Hnew
    by apply zip3_with_unsaved.
  assert (length objs = length L) as Hlen
    by (unfold objs; rewrite length_zip3_with; congruence).
  assert (DbGenotype.id <$> new = Some <$> ids) as Hk.
  { unfold new, ids. rewrite <- Hlen. by apply assign_ids_keys. }
  exists ids, (Build_AsyncSession bs rs ss (genotype_table session ++ new)
                 (next + Z.of_nat (length L))).
  split; [by apply to_database_Ok|].
  split; [unfold ids; rewrite length_seqZ; lia|].
  split.
  { split; [done|split; [done|split; [done|]]].
    cbn. rewrite <- Hlen. by apply table_ok_flush. }
  cbn [Serializer.from_database GenotypeSerializer].
  assert (select_id_in
            (Build_AsyncSession bs rs ss (genotype_table session ++ new)
               (next + Z.of_nat (length L))) ids = new) as Hsel.
  { unfold select_id_in. cbn. rewrite filter_app.
    rewrite (select_none ids next); [|apply Hok|].
    - cbn. by apply select_all.
    - apply Forall_forall. intros i Hi. apply elem_of_seqZ in Hi. lia. }
  rewrite (from_database_resolved _ ids new); rewrite ?Hsel; try done.
  - cbn [body_store brain_store seed_store]. unfold new.
    rewrite !assign_ids_fmap by done. unfold objs.
    rewrite (fmap_zip3_with _ DbGenotype.body_id (λ b _ _, b))
      by (intros; reflexivity).
    rewrite (fmap_zip3_with _ DbGenotype.brain_id (λ _ r _, r))
      by (intros; reflexivity).
    rewrite (fmap_zip3_with _ DbGenotype.seed_id (λ _ _ s, s))
      by (intros; reflexivity).
    rewrite zip3_with_fst, zip3_with_snd, zip3_with_thd by congruence.
    rewrite Fb, Fr, Fs. cbn. by rewrite zip3_with_fmap_Genotype.
  - rewrite Hk. apply (NoDup_fmap_2 Some), NoDup_seqZ.
  - rewrite <- (length_fmap DbGenotype.id), Hk. by rewrite length_fmap.
Qed.

(** *** Claims on persistence *)

(** C1. Round trip through persistence: for every non-empty list [L] of
    genotypes, [to_database] returns ids and [from_database] on the
    returned ids yields [L] itself, same content in the same order,
    provided the body, brain and seed serializers satisfy the round-trip
    contract. *)
Theorem to_database_from_database_round_trip
    (inv_body : BodyStore → Prop) (inv_brain : BrainStore → Prop)
    (inv_seed : SeedStore → Prop)
    (session : AsyncSession) (L : list Genotype) :
  round_trip CppnwinGenotypeSerializer inv_body →
  round_trip ArrayGenotypeSerializer inv_brain →
  round_trip FloatSerializer inv_seed →
  session_ok inv_body inv_brain inv_seed session →
  L ≠ [] →
  ∃ ids session',
    genotypes_to_database session L = Ok (ids, session') ∧
    genotypes_from_database session' ids = Ok L.
Proof.
  intros Hb Hr Hs Hok _.
  destruct (GenotypeSerializer_round_trip _ _ _ Hb Hr Hs session L Hok)
    as (ids & session' & Hto & _ & _ & Hfrom).
  by exists ids, session'.
Qed.

(** C2 (amended). [from_database] raises the incompatibility error
    whenever the number of selected rows differs from the length of the
    request, duplicates counted; keys being unique, that is exactly when
    some requested id is not stored or an id is requested more than once.
    A list it returns is neither truncated nor padded: it has the length
    of the request, whose ids are then all stored and pairwise distinct. *)
Theorem from_database_incompatible_on_count
    (session : AsyncSession) (ids : list Z) :
  one_object_per_id CppnwinGenotypeSerializer →
  one_object_per_id ArrayGenotypeSerializer →
  one_object_per_id FloatSerializer →
  table_ok (genotype_table session) (genotype_next_id session) →
  (length (select_id_in session ids) ≠ length ids
   ↔ (∃ i, i ∈ ids ∧ ¬ stored (genotype_table session) i) ∨ ¬ NoDup ids) ∧
  (length (select_id_in session ids) ≠ length ids →
   genotypes_from_database session ids = Raise IncompatibleError) ∧
  (∀ i, i ∈ ids → ¬ stored (genotype_table session) i →
        genotypes_from_database session ids = Raise IncompatibleError) ∧
  (∀ gs, genotypes_from_database session ids = Ok gs →
         length gs = length ids ∧
         NoDup ids ∧ Forall (stored (genotype_table session)) ids).
Proof.
  intros Hb Hr Hs Hok.
  pose proof (select_count_iff _ _ ids Hok) as Hiff.
  fold (select_id_in session ids) in Hiff.
  assert (length (select_id_in session ids) ≠ length ids
          ↔ (∃ i, i ∈ ids ∧ ¬ stored (genotype_table session) i)
            ∨ ¬ NoDup ids) as Hne.
  { rewrite Hiff. split.
    - intros Hn. destruct (decide (NoDup ids)) as [Hnd|]; [|by right].
      left. destruct (decide (Forall (stored (genotype_table session)) ids))
        as [|Hex]; [by destruct Hn|].
      apply not_Forall_Exists in Hex; [|apply _].
      apply Exists_exists in Hex as (i & Hi & Hns). eauto.
    - intros [(i & Hi & Hns)|Hnd] [Hn Hall]; [|done].
      rewrite Forall_forall in Hall. auto. }
  split; [done|]. split; [apply from_database_count|]. split.
  - intros i Hi Hns. apply from_database_count, Hne. eauto.
  - intros gs Hgs. split; [by eapply from_database_length|].
    apply Hiff. by eapply from_database_Ok_count.
Qed.

(** C3 (amended). [from_database] does not accept duplicate ids: a request
    in which an id occurs twice raises the incompatibility error, even
    when every requested id is stored. For a request without duplicates
    whose ids are all stored, it reads the body, brain and seed ids of the
    requested rows in request order and zips what the three collaborators
    return for them. *)
Theorem from_database_rejects_duplicates
    (session : AsyncSession) (ids : list Z) :
  table_ok (genotype_table session) (genotype_next_id session) →
  (¬ NoDup ids → genotypes_from_database session ids = Raise IncompatibleError) ∧
  (NoDup ids → Forall (stored (genotype_table session)) ids →
   ∃ rows,
     rows ⊆ genotype_table session ∧
     DbGenotype.id <$> rows = Some <$> ids ∧
     genotypes_from_database session ids
     = (body_genotypes ← Serializer.from_database CppnwinGenotypeSerializer
                           (body_store session) (DbGenotype.body_id <$> rows);
        brain_genotypes ← Serializer.from_database ArrayGenotypeSerializer
                            (brain_store session)
                            (DbGenotype.brain_id <$> rows);
        random_seeds ← Serializer.from_database FloatSerializer
                         (seed_store session) (DbGenotype.seed_id <$> rows);
        Ok (zip3_with Build_Genotype body_genotypes brain_genotypes
              random_seeds))).
Proof.
  intros Hok. split.
  - intros Hnd. apply from_database_count. intros Heq.
    apply Hnd. by apply (select_count_iff _ _ ids Hok).
  - by apply from_database_stored.
Qed.

(** C4. [to_database] returns exactly one assigned id per genotype, in
    input order: the ids are the consecutive keys given to the rows built
    from the collaborators' ids, row by row. Every flushed row has a key,
    so with collaborators that return one id per object the length
    assertion does not fire: an exception leaving [to_database] is one
    raised by a collaborator's write. *)
Theorem to_database_one_id_per_genotype
    (session : AsyncSession) (L : list Genotype) :
  one_id_per_object CppnwinGenotypeSerializer →
  one_id_per_object ArrayGenotypeSerializer →
  one_id_per_object FloatSerializer →
  (∀ e, genotypes_to_database session L = Raise e →
        Serializer.to_database CppnwinGenotypeSerializer
          (body_store session) (body <$> L) = Raise e
        ∨ Serializer.to_database ArrayGenotypeSerializer
            (brain_store session) (brain <$> L) = Raise e
        ∨ Serializer.to_database FloatSerializer
            (seed_store session) (random_seed <$> L) = Raise e) ∧
  (∀ body_ids bs brain_ids rs seed_ids ss,
      Serializer.to_database CppnwinGenotypeSerializer
        (body_store session) (body <$> L) = Ok (body_ids, bs) →
      Serializer.to_database ArrayGenotypeSerializer
        (brain_store session) (brain <$> L) = Ok (brain_ids, rs) →
      Serializer.to_database FloatSerializer
        (seed_store session) (random_seed <$> L) = Ok (seed_ids, ss) →
      ∃ ids rows,
        genotypes_to_database session L
        = Ok (ids, Build_AsyncSession bs rs ss
                     (genotype_table session ++ rows)
                     (genotype_next_id session + Z.of_nat (length L))) ∧
        length ids = length L ∧
        ids = seqZ (genotype_next_id session) (Z.of_nat (length L)) ∧
        DbGenotype.id <$> rows = Some <$> ids ∧
        DbGenotype.body_id <$> rows = body_ids ∧
        DbGenotype.brain_id <$> rows = brain_ids ∧
        DbGenotype.seed_id <$> rows = seed_ids) ∧
  (∀ ids session',
      genotypes_to_database session L = Ok (ids, session') → length ids = length L).
Proof.
  intros Hb Hr Hs.
  assert (∀ body_ids bs brain_ids rs seed_ids ss,
      Serializer.to_database CppnwinGenotypeSerializer
        (body_store session) (body <$> L) = Ok (body_ids, bs) →
      Serializer.to_database ArrayGenotypeSerializer
        (brain_store session) (brain <$> L) = Ok (brain_ids, rs) →
      Serializer.to_database FloatSerializer
        (seed_store session) (random_seed <$> L) = Ok (seed_ids, ss) →
      length body_ids = length L ∧ length brain_ids = length L ∧
      length seed_ids = length L) as Hlen.
  { intros * Eb Er Es. apply Hb in Eb. apply Hr in Er. apply Hs in Es.
    rewrite length_fmap in Eb. rewrite length_fmap in Er.
    rewrite length_fmap in Es. done. }
  split; [|split].
  - intros e He.
    destruct (to_database_writes session L)
      as [(e' & He' & Hw)|(body_ids & bs & brain_ids & rs & seed_ids & ss
                            & Eb & Er & Es)].
    + rewrite He in He'. by injection He' as <-.
    + destruct (Hlen _ _ _ _ _ _ Eb Er Es) as (Lb & Lr & Ls).
      by rewrite (to_database_Ok _ _ _ _ _ _ _ _ Eb Er Es Lb Lr Ls) in He.
  - intros * Eb Er Es.
    destruct (Hlen _ _ _ _ _ _ Eb Er Es) as (Lb & Lr & Ls).
    pose proof (zip3_with_unsaved body_ids brain_ids seed_ids) as Hnew.
    assert (length (zip3_with new_row body_ids brain_ids seed_ids)
            = length L) as Hl by (rewrite length_zip3_with; congruence).
    eexists _, _. split; [by apply to_database_Ok|].
    split; [rewrite length_seqZ; lia|]. split; [done|].
    split; [rewrite <- Hl; by apply assign_ids_keys|].
    rewrite !assign_ids_fmap by done.
    rewrite (fmap_zip3_with _ DbGenotype.body_id (λ b _ _, b))
      by (intros; reflexivity).
    rewrite (fmap_zip3_with _ DbGenotype.brain_id (λ _ r _, r))
      by (intros; reflexivity).
    rewrite (fmap_zip3_with _ DbGenotype.seed_id (λ _ _ s, s))
      by (intros; reflexivity).
    rewrite zip3_with_fst, zip3_with_snd, zip3_with_thd by congruence.
    done.
  - intros ids session'. unfold to_database.
    destruct (Serializer.to_database CppnwinGenotypeSerializer _ _)
      as [[body_ids bs]|]; cbn; [|done].
    destruct (Serializer.to_database ArrayGenotypeSerializer _ _)
      as [[brain_ids rs]|]; cbn; [|done].
    destruct (Serializer.to_database FloatSerializer _ _)
      as [[seed_ids ss]|]; cbn; [|done].
    destruct (decide _) as [Heq|]; [|done]. by intros [= <- _].
Qed.
End Persistence.

(** ** The reference serializer satisfies the contracts *)

Lemma ListSerializer_one_id_per_object (T : Type) :
  one_id_per_object (Reference.ListSerializer T).
Proof.
  intros st vs ids st'. cbn. unfold Reference.list_to_database.
  intros [= <- _]. rewrite length_seqZ. lia.
Qed.

Lemma ListSerializer_one_object_per_id (T : Type) :
  one_object_per_id (Reference.ListSerializer T).
Proof.
  intros st ids vs. cbn. unfold Reference.list_from_database. intros H.
  apply mapM_Ok_inv, Forall2_length in H. done.
Qed.

Lemma list_from_database_app {T : Type} (st vs : list T) :
  Reference.list_from_database (st ++ vs)
    (seqZ (Z.of_nat (length st)) (Z.of_nat (length vs))) = Ok vs.
Proof.
  apply mapM_Ok_Forall2. revert st.
  induction vs as [|v vs IH]; intros st; [constructor|].
  rewrite seqZ_cons by (cbn; lia). constructor.
  - rewrite decide_True by lia. rewrite Nat2Z.id.
    by rewrite list_lookup_middle.
  - specialize (IH (st ++ [v])). rewrite <- app_assoc in IH. cbn in IH.
    rewrite length_app in IH. cbn in IH.
    replace (Z.succ (Z.of_nat (length st)))
      with (Z.of_nat (length st + 1)) by lia.
    replace (Z.pred (Z.of_nat (length (v :: vs))))
      with (Z.of_nat (length vs)) by (cbn; lia).
    done.
Qed.

Lemma ListSerializer_round_trip (T : Type) :
  round_trip (Reference.ListSerializer T) (λ _, True).
Proof.
  intros st vs _. eexists _, _. split; [reflexivity|].
  split; [rewrite length_seqZ; lia|]. split; [done|].
  apply list_from_database_app.
Qed.

Lemma session0_ok :
  session_ok (λ _, True) (λ _, True) (λ _, True) Reference.session0.
Proof. repeat split; cbn; constructor. Qed.

Lemma session2_table_ok :
  table_ok (genotype_table Reference.session2)
    (genotype_next_id Reference.session2).
Proof. apply (bool_decide_unpack _). vm_compute. exact I. Qed.

(** ** The model on concrete inputs *)

Section PersistenceExamples.
Import Reference.

Abbreviation Bodies := (ListSerializer (list Z)).
Abbreviation Brains := (ListSerializer (list Z)).
Abbreviation Seeds := (ListSerializer Z).

Example to_database_session0 :
  to_database Bodies Brains Seeds session0 [g1; g2] = Ok ([1; 2], session2).
Proof. reflexivity. Qed.

Example from_database_session2 :
  from_database Bodies Brains Seeds session2 [2; 1] = Ok [g2; g1].
Proof. vm_compute. reflexivity. Qed.

(** With a collaborator that returns an id too few, the zip drops a row
    and the assertion fires. *)
Example to_database_short_collaborator :
  to_database (ShortSerializer (list Z)) Brains Seeds session0 [g1; g2]
  = Raise AssertionError.
Proof. vm_compute. reflexivity. Qed.

Lemma to_database_from_database_round_trip_witness :
  round_trip Bodies (λ _, True) ∧
  round_trip Brains (λ _, True) ∧
  round_trip Seeds (λ _, True) ∧
  session_ok (λ _, True) (λ _, True) (λ _, True) session0 ∧
  [g1; g2] ≠ [] ∧
  ∃ ids session',
    to_database Bodies Brains Seeds session0 [g1; g2] = Ok (ids, session') ∧
    from_database Bodies Brains Seeds session' ids = Ok [g1; g2].
Proof.
  pose proof (ListSerializer_round_trip (list Z)) as Hl.
  pose proof (ListSerializer_round_trip Z) as Hz.
  pose proof session0_ok as Hok.
  assert ([g1; g2] ≠ []) as Hne by discriminate.
  repeat (split; [assumption|]).
  exact (to_database_from_database_round_trip Bodies Brains Seeds
           _ _ _ session0 [g1; g2] Hl Hl Hz Hok Hne).
Defined.

(** C2 as stated fails: the request [1; 1] has one distinct id and one
    matching row, so no fewer rows than distinct ids, and yet
    [from_database] raises the incompatibility error. *)
Lemma from_database_duplicate_request_counterexample :
  ¬ (from_database Bodies Brains Seeds session2 [1; 1]
     = Raise IncompatibleError
     ↔ (length (select_id_in session2 [1%Z; 1%Z])
        < length (remove_dups [1%Z; 1%Z]))%nat).
Proof.
  intros [Hraise _].
  assert (from_database Bodies Brains Seeds session2 [1; 1]
          = Raise IncompatibleError) as H by (vm_compute; reflexivity).
  apply Hraise in H. vm_compute in H. lia.
Qed.

Lemma from_database_incompatible_on_count_witness :
  one_object_per_id Bodies ∧
  one_object_per_id Brains ∧
  one_object_per_id Seeds ∧
  table_ok (genotype_table session2) (genotype_next_id session2) ∧
  from_database Bodies Brains Seeds session2 [1; 2; 999999]
  = Raise IncompatibleError.
Proof.
  pose proof (ListSerializer_one_object_per_id (list Z)) as Hl.
  pose proof (ListSerializer_one_object_per_id Z) as Hz.
  pose proof session2_table_ok as Hok.
  repeat (split; [assumption|]).
  refine (proj1 (proj2 (proj2
            (from_database_incompatible_on_count Bodies Brains Seeds
               session2 [1; 2; 999999] Hl Hl Hz Hok))) 999999 _ _).
  - by apply (bool_decide_unpack _).
  - by apply (bool_decide_unpack _).
Defined.

(** C3 as stated fails: with 1 and 2 stored, the request [1; 2; 1] is not
    answered by three genotypes but by the incompatibility error. *)
Lemma from_database_x_y_x_counterexample :
  stored (genotype_table session2) 1 ∧
  stored (genotype_table session2) 2 ∧
  from_database Bodies Brains Seeds session2 [1; 2; 1]
  = Raise IncompatibleError ∧
  ¬ (∃ gs, from_database Bodies Brains Seeds session2 [1; 2; 1] = Ok gs
           ∧ length gs = length [1; 2; 1]).
Proof.
  split; [by apply (bool_decide_unpack _)|].
  split; [by apply (bool_decide_unpack _)|].
  split; [vm_compute; reflexivity|].
  intros (gs & Hgs & _). vm_compute in Hgs. discriminate.
Qed.

Lemma from_database_rejects_duplicates_witness :
  table_ok (genotype_table session2) (genotype_next_id session2) ∧
  from_database Bodies Brains Seeds session2 [1; 2; 1]
  = Raise IncompatibleError.
Proof.
  pose proof session2_table_ok as Hok.
  split; [assumption|].
  refine (proj1 (from_database_rejects_duplicates Bodies Brains Seeds
                   session2 [1; 2; 1] Hok) _).
  by apply (bool_decide_unpack _).
Defined.

Lemma to_database_one_id_per_genotype_witness :
  one_id_per_object Bodies ∧
  one_id_per_object Brains ∧
  one_id_per_object Seeds ∧
  ∃ ids session',
    to_database Bodies Brains Seeds session0 [g1; g2] = Ok (ids, session') ∧
    length ids = length [g1; g2].
Proof.
  pose proof (ListSerializer_one_id_per_object (list Z)) as Hl.
  pose proof (ListSerializer_one_id_per_object Z) as Hz.
  repeat (split; [assumption|]).
  destruct (proj1 (proj2 (to_database_one_id_per_genotype Bodies Brains Seeds
                            session0 [g1; g2] Hl Hl Hz))
              _ _ _ _ _ _ eq_refl eq_refl eq_refl)
    as (ids & rows & Hto & Hlen & _).
  eauto.
Defined.
End PersistenceExamples.

(** ** The variation operators *)

(** Name the result of each collaborator call met in the goal. *)
Ltac name_calls :=
  repeat match goal with
         | |- context [match ?x with (_, _) => _ end] =>
             let E := fresh "Call" in destruct x eqn:E; cbn [fst snd]
         end.

Section VariationProofs.
Context {CppnwinGenotype ArrayGenotype InnovationDatabase Random RNG Globals : Type}.
Context `{!Collaborators CppnwinGenotype ArrayGenotype InnovationDatabase
            Random RNG Globals}.

Abbreviation Genotype := (Genotype CppnwinGenotype ArrayGenotype).

Lemma _multineat_rng_from_random_draw (rng : Random) :
  _multineat_rng_from_random rng
  = (Seed multineat_RNG (randint 0 (2 ^ 31) rng).1,
     (randint 0 (2 ^ 31) rng).2).
Proof. unfold _multineat_rng_from_random. by destruct (randint _ _ rng). Qed.

(** C5. Seed lineage: the child of [mutate] carries its parent's seed;
    the child of [crossover] carries the seed of [parent1] when
    [first_best] is true and of [parent2] when it is false. *)
Theorem seed_lineage (genotype parent1 parent2 : Genotype)
    (innov_db_body innov_db_brain : InnovationDatabase) (rng : Random)
    (globals : Globals) :
  random_seed (mutate genotype innov_db_body innov_db_brain rng globals).1.1.1
  = random_seed genotype ∧
  random_seed (crossover parent1 parent2 rng true globals).1.1
  = random_seed parent1 ∧
  random_seed (crossover parent1 parent2 rng false globals).1.1
  = random_seed parent2.
Proof.
  unfold mutate, crossover. repeat split; name_calls; reflexivity.
Qed.

(** C6. The seed of a random genotype is the integer that
    [rng.randint(1, 10000)] draws from the random source once the brain
    has been generated, so it lies between 1 and 10000 inclusive. *)
Theorem random_seed_range (innov_db_body : InnovationDatabase)
    (rng : Random) (num_initial_mutations robot_grid_size : Z)
    (globals : Globals) :
  (∀ a b r, a ≤ b → a ≤ (randint a b r).1 ≤ b) →
  let after_rng := _multineat_rng_from_random rng in
  let after_body :=
    body_random innov_db_body after_rng.1 _MULTINEAT_PARAMS TANH
      num_initial_mutations globals in
  let after_brain :=
    random_array_genotype robot_grid_size after_rng.2 after_body.2 in
  let g := (random innov_db_body rng num_initial_mutations robot_grid_size
              globals).1.1.1 in
  random_seed g = (randint 1 10000 after_brain.1.2).1 ∧
  1 ≤ random_seed g ≤ 10000.
Proof.
  intros Hrange. cbv zeta. unfold random.
  destruct (_multineat_rng_from_random rng) as [multineat_rng rng1].
  destruct (body_random _ _ _ _ _ _) as [[body innov] globals1].
  destruct (random_array_genotype _ _ _) as [[brain rng2] globals2].
  cbn [fst snd]. pose proof (Hrange 1 10000 rng2 ltac:(lia)) as Hr.
  destruct (randint 1 10000 rng2) as [seed rng3]. cbn in *. done.
Qed.

(** C7. Fixed delegation parameters: [mutate] calls the brain mutation
    with 0, 0.5 and 0.8; [crossover] calls the body crossover with both
    flags false and the brain crossover with 0.5 and the caller's
    [first_best]. *)
Theorem delegation_parameters (genotype parent1 parent2 : Genotype)
    (innov_db_body innov_db_brain : InnovationDatabase) (rng : Random)
    (first_best : bool) (globals : Globals) :
  let multineat_rng := (_multineat_rng_from_random rng).1 in
  let mutated_body :=
    mutate_v1 (body genotype) _MULTINEAT_PARAMS innov_db_body multineat_rng
      globals in
  let crossed_body :=
    crossover_v1 (body parent1) (body parent2) _MULTINEAT_PARAMS
      multineat_rng false false globals in
  let child :=
    (mutate genotype innov_db_body innov_db_brain rng globals).1.1.1 in
  let offspring := (crossover parent1 parent2 rng first_best globals).1.1 in
  body child = mutated_body.1.1 ∧
  brain child
  = (brain_mutation (brain genotype) 0 0.5%float 0.8%float mutated_body.2).1 ∧
  body offspring = crossed_body.1 ∧
  brain offspring
  = (brain_crossover (brain parent1) (brain parent2) 0.5%float first_best
       crossed_body.2).1.
Proof.
  cbv zeta. unfold mutate, crossover.
  destruct (_multineat_rng_from_random rng) as [multineat_rng rng1].
  cbn [fst snd].
  destruct (mutate_v1 _ _ _ _ _) as [[new_body innov] globals1].
  destruct (crossover_v1 _ _ _ _ _ _ _) as [crossed globals2].
  cbn [fst snd].
  destruct (brain_mutation _ _ _ _ _) as [new_brain globals3].
  destruct (brain_crossover _ _ _ _ _) as [crossed_brain globals4].
  done.
Qed.

(** C8. Determinism of random generation: when the body and brain
    generators are functions of the arguments they are given, two calls
    of [random] from the same random-source state and innovation-database
    state, with the same numbers of mutations and brain sizes, produce
    the same genotype and leave the database and the random source in
    the same state, whatever else differs between the calls. *)
Theorem random_deterministic
    (innov_A innov_B : InnovationDatabase) (rng_A rng_B : Random)
    (mutations_A mutations_B size_A size_B : Z)
    (globals_A globals_B : Globals) :
  (∀ i m p a n g g', (body_random i m p a n g).1 = (body_random i m p a n g').1) →
  (∀ s r g g',
     (random_array_genotype s r g).1 = (random_array_genotype s r g').1) →
  innov_A = innov_B → rng_A = rng_B →
  mutations_A = mutations_B → size_A = size_B →
  (random innov_A rng_A mutations_A size_A globals_A).1
  = (random innov_B rng_B mutations_B size_B globals_B).1.
Proof.
  intros Hbody Hbrain <- <- <- <-. unfold random.
  destruct (_multineat_rng_from_random rng_A) as [multineat_rng rng1].
  pose proof (Hbody innov_A multineat_rng _MULTINEAT_PARAMS TANH mutations_A
                globals_A globals_B) as Hb.
  destruct (body_random _ _ _ _ _ globals_A) as [[body_A innov1] g_A].
  destruct (body_random _ _ _ _ _ globals_B) as [[body_B innov2] g_B].
  cbn in Hb. injection Hb as <- <-.
  pose proof (Hbrain size_A rng1 g_A g_B) as Hr.
  destruct (random_array_genotype _ _ g_A) as [[brain_A rng2] h_A].
  destruct (random_array_genotype _ _ g_B) as [[brain_B rng3] h_B].
  cbn in Hr. injection Hr as <- <-.
  by destruct (randint 1 10000 rng2).
Qed.

(** C10. Every operator starts by drawing one integer of [0, 2^31] from
    the caller's random source and seeds a new MultiNEAT generator with
    it; the body operator works with that generator. [mutate] and
    [crossover] draw nothing else, so they leave the random source one
    draw further; [random] hands the source, one draw further, to the
    brain generator. *)
Theorem first_draw_seeds_multineat_rng
    (genotype parent1 parent2 : Genotype)
    (innov_db_body innov_db_brain : InnovationDatabase) (rng : Random)
    (num_initial_mutations robot_grid_size : Z) (first_best : bool)
    (globals : Globals) :
  (∀ a b r, a ≤ b → a ≤ (randint a b r).1 ≤ b) →
  let n := (randint 0 (2 ^ 31) rng).1 in
  let rng1 := (randint 0 (2 ^ 31) rng).2 in
  let multineat_rng := Seed multineat_RNG n in
  let born :=
    random innov_db_body rng num_initial_mutations robot_grid_size globals in
  let child := mutate genotype innov_db_body innov_db_brain rng globals in
  let offspring := crossover parent1 parent2 rng first_best globals in
  let random_body :=
    body_random innov_db_body multineat_rng _MULTINEAT_PARAMS TANH
      num_initial_mutations globals in
  0 ≤ n ≤ 2 ^ 31 ∧
  _multineat_rng_from_random rng = (multineat_rng, rng1) ∧
  body born.1.1.1 = random_body.1.1 ∧
  brain born.1.1.1
  = (random_array_genotype robot_grid_size rng1 random_body.2).1.1 ∧
  body child.1.1.1
  = (mutate_v1 (body genotype) _MULTINEAT_PARAMS innov_db_body multineat_rng
       globals).1.1 ∧
  child.1.2 = rng1 ∧
  body offspring.1.1
  = (crossover_v1 (body parent1) (body parent2) _MULTINEAT_PARAMS
       multineat_rng false false globals).1 ∧
  offspring.1.2 = rng1.
Proof.
  intros Hrange. cbv zeta. unfold random, mutate, crossover.
  rewrite _multineat_rng_from_random_draw.
  split; [apply Hrange; lia|]. split; [done|].
  destruct (body_random _ _ _ _ _ _) as [[body innov] globals1].
  destruct (mutate_v1 _ _ _ _ _) as [[new_body innov1] globals2].
  destruct (crossover_v1 _ _ _ _ _ _ _) as [crossed globals3].
  cbn [fst snd].
  destruct (random_array_genotype _ _ _) as [[brain rng2] globals4].
  destruct (brain_mutation _ _ _ _ _) as [new_brain globals5].
  destruct (brain_crossover _ _ _ _ _) as [crossed_brain globals6].
  cbn [fst snd]. by destruct (randint 1 10000 rng2).
Qed.
End VariationProofs.

(** ** The operators on concrete inputs *)

Lemma reference_randint_range (a b r : Z) :
  a ≤ b → a ≤ (randint (Collaborators := Reference.collaborators) a b r).1 ≤ b.
Proof.
  intros Hab. cbn. pose proof (Z.mod_pos_bound r (b - a + 1) ltac:(lia)). lia.
Qed.

Section VariationExamples.
Import Reference.

Example random_reference :
  random 0 5 5 8 0
  = (Build_Genotype [5; 5] [8; 1222621274] 4748, 5, 695785320, 0).
Proof. vm_compute. reflexivity. Qed.

Example mutate_reference :
  mutate g1 0 0 5 0 = (Build_Genotype [5; 1; 2] [0; 3] 42, 1, 1222621274, 1).
Proof. vm_compute. reflexivity. Qed.

Example crossover_reference :
  crossover g1 g2 5 false 0
  = (Build_Genotype [5; 1; 2; 4] [0; 5; 6] 7, 1222621274, 1).
Proof. vm_compute. reflexivity. Qed.

Lemma random_seed_range_witness :
  (∀ a b r, a ≤ b → a ≤ (randint a b r).1 ≤ b) ∧
  1 ≤ random_seed (random 0 5 5 8 0).1.1.1 ≤ 10000.
Proof.
  split; [exact reference_randint_range|].
  exact (proj2 (random_seed_range 0 5 5 8 0 reference_randint_range)).
Defined.

Lemma random_deterministic_witness :
  (random 0 5 5 8 0).1 = (random 0 5 5 8 7).1.
Proof.
  apply (random_deterministic 0 0 5 5 5 5 8 8 0 7); reflexivity.
Defined.

Lemma first_draw_seeds_multineat_rng_witness :
  (∀ a b r, a ≤ b → a ≤ (randint a b r).1 ≤ b) ∧
  (crossover g1 g2 5 true 0).1.2 = (randint 0 (2 ^ 31) 5).2.
Proof.
  split; [exact reference_randint_range|].
  exact (proj2 (proj2 (proj2 (proj2 (proj2 (proj2 (proj2
           (first_draw_seeds_multineat_rng g1 g1 g2 0 0 5 5 8 true 0
              reference_randint_range)))))))).
Defined.
End VariationExamples.

(** ** The operators on objects *)

Section ObjectProofs.
Context {CppnwinGenotype ArrayGenotype InnovationDatabase Random RNG Globals : Type}.
Context {collaborators : Collaborators CppnwinGenotype ArrayGenotype
                            InnovationDatabase Random RNG Globals}.
Context {encoders : Obj.Encoders CppnwinGenotype ArrayGenotype
                      InnovationDatabase Random RNG Globals}.

Abbreviation object := (Obj.object CppnwinGenotype ArrayGenotype).

Lemma fresh_address_unused (heap : gmap positive object) :
  heap !! fresh (dom heap) = None.
Proof. apply not_elem_of_dom, is_fresh. Qed.

Lemma unused_before (heap heap' : gmap positive object) (a : positive) :
  heap ⊆ heap' → heap' !! a = None → heap !! a = None.
Proof.
  intros Hsub Ha. destruct (heap !! a) as [o|] eqn:Ho; [|done].
  apply (lookup_weaken _ _ _ _ Ho) in Hsub. congruence.
Qed.

Lemma new_Genotype_new (heap : gmap positive object) (body brain : positive)
    (random_seed : Z) :
  heap !! (Obj.new_Genotype heap body brain random_seed).1 = None ∧
  (Obj.new_Genotype heap body brain random_seed).2
    !! (Obj.new_Genotype heap body brain random_seed).1
  = Some (Obj.GenotypeObject body brain random_seed) ∧
  heap ⊆ (Obj.new_Genotype heap body brain random_seed).2.
Proof.
  unfold Obj.new_Genotype. cbn. pose proof (fresh_address_unused heap).
  split; [done|]. split; [by rewrite lookup_insert_eq|].
  by apply insert_subseteq.
Qed.

Lemma getattr_later (heap heap' : gmap positive object)
    (genotype body brain : positive) (random_seed : Z) :
  heap ⊆ heap' →
  heap !! genotype = Some (Obj.GenotypeObject body brain random_seed) →
  Obj.getattr_body heap' genotype = Some body ∧
  Obj.getattr_brain heap' genotype = Some brain ∧
  Obj.getattr_random_seed heap' genotype = Some random_seed.
Proof.
  intros Hsub Hg. apply (lookup_weaken _ _ _ _ Hg) in Hsub.
  unfold Obj.getattr_body, Obj.getattr_brain, Obj.getattr_random_seed.
  by rewrite Hsub.
Qed.

Lemma random_new_instance (heap : gmap positive object)
    (innov_db_body : InnovationDatabase) (rng : Random)
    (num_initial_mutations robot_grid_size : Z) (globals : Globals) :
  Obj.preserves_objects encoders →
  let born := Obj.random innov_db_body rng num_initial_mutations
                robot_grid_size globals heap in
  heap !! born.1.1.1.1 = None ∧
  (∃ body brain random_seed,
      born.1.1.1.2 !! born.1.1.1.1
      = Some (Obj.GenotypeObject body brain random_seed)) ∧
  heap ⊆ born.1.1.1.2.
Proof.
  intros (Hbr & Hra & _). cbv zeta. unfold Obj.random.
  destruct (_multineat_rng_from_random rng) as [multineat_rng rng1].
  pose proof (Hbr innov_db_body multineat_rng _MULTINEAT_PARAMS TANH
                num_initial_mutations globals heap) as H1.
  destruct (Obj.body_random _ _ _ _ _ _ _) as [[[body heap1] innov] globals1].
  pose proof (Hra robot_grid_size rng1 globals1 heap1) as H2.
  destruct (Obj.random_array_genotype _ _ _ _)
    as [[[brain heap2] rng2] globals2].
  destruct (randint 1 10000 rng2) as [seed rng3].
  destruct (new_Genotype_new heap2 body brain seed) as (Hf & Hv & H3).
  unfold Obj.new_Genotype in *. cbn [fst snd] in *.
  assert (heap ⊆ heap2) as H12 by (by trans heap1).
  split; [by apply (unused_before heap heap2)|]. split; [eauto|]. by trans heap2.
Qed.

Lemma mutate_new_instance (heap : gmap positive object)
    (genotype body brain : positive) (random_seed : Z)
    (innov_db_body innov_db_brain : InnovationDatabase) (rng : Random)
    (globals : Globals) :
  Obj.preserves_objects encoders →
  heap !! genotype = Some (Obj.GenotypeObject body brain random_seed) →
  ∃ child heap' innov_db_body' rng' globals' new_body new_brain,
    Obj.mutate genotype innov_db_body innov_db_brain rng globals heap
    = Some (child, heap', innov_db_body', rng', globals') ∧
    heap !! child = None ∧
    heap' !! child = Some (Obj.GenotypeObject new_body new_brain random_seed) ∧
    heap ⊆ heap'.
Proof.
  intros (_ & _ & Hmv & Hbm & _) Hg. unfold Obj.mutate.
  destruct (_multineat_rng_from_random rng) as [multineat_rng rng1].
  destruct (getattr_later heap heap _ _ _ _ (reflexivity _) Hg) as (-> & _).
  cbn.
  pose proof (Hmv body _MULTINEAT_PARAMS innov_db_body multineat_rng globals
                heap) as H1.
  destruct (Obj.mutate_v1 _ _ _ _ _ _) as [[[new_body heap1] innov] globals1].
  cbn in H1.
  destruct (getattr_later heap heap1 _ _ _ _ H1 Hg) as (_ & -> & _). cbn.
  pose proof (Hbm brain 0 0.5%float 0.8%float globals1 heap1) as H2.
  destruct (Obj.brain_mutation _ _ _ _ _ _) as [[new_brain heap2] globals2].
  cbn in H2.
  assert (heap ⊆ heap2) as H12 by (by trans heap1).
  destruct (getattr_later heap heap2 _ _ _ _ H12 Hg) as (_ & _ & ->). cbn.
  destruct (new_Genotype_new heap2 new_body new_brain random_seed)
    as (Hf & Hv & H3).
  unfold Obj.new_Genotype in *. cbn [fst snd] in *.
  eexists _, _, _, _, _, _, _. split; [reflexivity|].
  split; [by apply (unused_before heap heap2)|]. split; [done|]. by trans heap2.
Qed.

Lemma crossover_new_instance (heap : gmap positive object)
    (parent1 parent2 body1 brain1 body2 brain2 : positive) (seed1 seed2 : Z)
    (rng : Random) (first_best : bool) (globals : Globals) :
  Obj.preserves_objects encoders →
  heap !! parent1 = Some (Obj.GenotypeObject body1 brain1 seed1) →
  heap !! parent2 = Some (Obj.GenotypeObject body2 brain2 seed2) →
  ∃ offspring heap' rng' globals' body brain,
    Obj.crossover parent1 parent2 rng first_best globals heap
    = Some (offspring, heap', rng', globals') ∧
    heap !! offspring = None ∧
    heap' !! offspring
    = Some (Obj.GenotypeObject body brain
              (if first_best then seed1 else seed2)) ∧
    heap ⊆ heap'.
Proof.
  intros (_ & _ & _ & _ & Hcv & Hbc) Hp1 Hp2. unfold Obj.crossover.
  destruct (_multineat_rng_from_random rng) as [multineat_rng rng1].
  destruct (getattr_later heap heap _ _ _ _ (reflexivity _) Hp1) as (-> & _).
  destruct (getattr_later heap heap _ _ _ _ (reflexivity _) Hp2) as (-> & _).
  cbn.
  pose proof (Hcv body1 body2 _MULTINEAT_PARAMS multineat_rng false false
                globals heap) as H1.
  destruct (Obj.crossover_v1 _ _ _ _ _ _ _ _) as [[body heap1] globals1].
  cbn in H1.
  destruct (getattr_later heap heap1 _ _ _ _ H1 Hp1) as (_ & -> & _).
  destruct (getattr_later heap heap1 _ _ _ _ H1 Hp2) as (_ & -> & _).
  cbn.
  pose proof (Hbc brain1 brain2 0.5%float first_best globals1 heap1) as H2.
  destruct (Obj.brain_crossover _ _ _ _ _ _) as [[brain heap2] globals2].
  cbn in H2.
  assert (heap ⊆ heap2) as H12 by (by trans heap1).
  destruct (getattr_later heap heap2 _ _ _ _ H12 Hp1) as (_ & _ & E1).
  destruct (getattr_later heap heap2 _ _ _ _ H12 Hp2) as (_ & _ & E2).
  assert ((if first_best then Obj.getattr_random_seed heap2 parent1
           else Obj.getattr_random_seed heap2 parent2)
          = Some (if first_best then seed1 else seed2)) as ->
    by by destruct first_best.
  cbn.
  destruct (new_Genotype_new heap2 body brain
              (if first_best then seed1 else seed2)) as (Hf & Hv & H3).
  unfold Obj.new_Genotype in *. cbn [fst snd] in *.
  eexists _, _, _, _, _, _. split; [reflexivity|].
  split; [by apply (unused_before heap heap2)|]. split; [done|]. by trans heap2.
Qed.


End ObjectProofs.

(** ** The allocating encoders *)

Section AllocatingProofs.
Context {CppnwinGenotype ArrayGenotype InnovationDatabase Random RNG Globals : Type}.
Context {collaborators : Collaborators CppnwinGenotype ArrayGenotype
                            InnovationDatabase Random RNG Globals}.

Abbreviation object := (Obj.object CppnwinGenotype ArrayGenotype).

Lemma new_object_new (heap : gmap positive object) (o : object) :
  heap !! (new_object heap o).1 = None ∧
  (new_object heap o).2 !! (new_object heap o).1 = Some o ∧
  heap ⊆ (new_object heap o).2.
Proof.
  unfold new_object. cbn. pose proof (fresh_address_unused heap).
  split; [done|]. split; [by rewrite lookup_insert_eq|].
  by apply insert_subseteq.
Qed.

Lemma allocating_encoders_preserve :
  Obj.preserves_objects allocating_encoders.
Proof.
  repeat split; intros; cbn.
  - destruct (body_random _ _ _ _ _ _) as [[v i'] g']. apply new_object_new.
  - destruct (random_array_genotype _ _ _) as [[v r'] g']. apply new_object_new.
  - destruct (heap !! b) as [[| v |]|]; try reflexivity.
    destruct (mutate_v1 _ _ _ _ _) as [[v' i'] g']. apply new_object_new.
  - destruct (heap !! b) as [[| | v]|]; try reflexivity.
    destruct (brain_mutation _ _ _ _ _) as [v' g']. apply new_object_new.
  - destruct (heap !! b1) as [[| v1 |]|]; try reflexivity.
    destruct (heap !! b2) as [[| v2 |]|]; try reflexivity.
    destruct (crossover_v1 _ _ _ _ _ _ _) as [v' g']. apply new_object_new.
  - destruct (heap !! b1) as [[| | v1]|]; try reflexivity.
    destruct (heap !! b2) as [[| | v2]|]; try reflexivity.
    destruct (brain_crossover _ _ _ _ _) as [v' g']. apply new_object_new.
Qed.

Lemma content_inv (heap : gmap positive object) (genotype : positive)
    (g : Genotype CppnwinGenotype ArrayGenotype) :
  Obj.content heap genotype = Some g →
  ∃ b r,
    heap !! genotype = Some (Obj.GenotypeObject b r (random_seed g)) ∧
    heap !! b = Some (Obj.CppnwinObject (body g)) ∧
    heap !! r = Some (Obj.ArrayObject (brain g)).
Proof.
  unfold Obj.content.
  destruct (heap !! genotype) as [[b r s| |]|]; try done.
  destruct (heap !! b) as [[| vb |]|] eqn:Hb; try done.
  destruct (heap !! r) as [[| | vr]|] eqn:Hr; try done.
  intros [= <-]. eauto.
Qed.

Lemma content_intro (heap : gmap positive object) (a b r : positive)
    vb vr (s : Z) :
  heap !! a = Some (Obj.GenotypeObject b r s) →
  heap !! b = Some (Obj.CppnwinObject vb) →
  heap !! r = Some (Obj.ArrayObject vr) →
  Obj.content heap a = Some (Build_Genotype vb vr s).
Proof. intros Ha Hb Hr. unfold Obj.content. by rewrite Ha, Hb, Hr. Qed.

(** With the allocating encoders the operators on objects compute what
    the operators on values compute. *)
Lemma mutate_allocating (heap : gmap positive object) (genotype : positive)
    (g : Genotype CppnwinGenotype ArrayGenotype)
    (innov_db_body innov_db_brain : InnovationDatabase) (rng : Random)
    (globals : Globals) :
  Obj.content heap genotype = Some g →
  ∃ child heap',
    Obj.mutate (encoders := allocating_encoders) genotype innov_db_body
      innov_db_brain rng globals heap
    = Some (child, heap',
            (mutate g innov_db_body innov_db_brain rng globals).1.1.2,
            (mutate g innov_db_body innov_db_brain rng globals).1.2,
            (mutate g innov_db_body innov_db_brain rng globals).2) ∧
    Obj.content heap' child
    = Some (mutate g innov_db_body innov_db_brain rng globals).1.1.1.
Proof.
  intros (b & r & Hg & Hb & Hr)%content_inv.
  unfold Obj.mutate, mutate.
  destruct (_multineat_rng_from_random rng) as [multineat_rng rng1].
  unfold Obj.getattr_body. rewrite Hg. cbn [mbind option_bind].
  cbn [Obj.mutate_v1 allocating_encoders]. rewrite Hb.
  destruct (mutate_v1 _ _ _ _ _) as [[vb innov] globals1].
  destruct (new_object_new heap (Obj.CppnwinObject vb)) as (F1 & V1 & S1).
  destruct (new_object heap (Obj.CppnwinObject vb)) as [a1 heap1].
  cbn [fst snd] in *.
  unfold Obj.getattr_brain. rewrite (lookup_weaken _ _ _ _ Hg S1).
  cbn [mbind option_bind].
  cbn [Obj.brain_mutation allocating_encoders].
  rewrite (lookup_weaken _ _ _ _ Hr S1).
  destruct (brain_mutation _ _ _ _ _) as [vr globals2].
  destruct (new_object_new heap1 (Obj.ArrayObject vr)) as (F2 & V2 & S2).
  destruct (new_object heap1 (Obj.ArrayObject vr)) as [a2 heap2].
  cbn [fst snd] in *.
  assert (heap ⊆ heap2) as S12 by by trans heap1.
  unfold Obj.getattr_random_seed. rewrite (lookup_weaken _ _ _ _ Hg S12).
  cbn [mbind option_bind].
  destruct (new_Genotype_new heap2 a1 a2 (random_seed g)) as (F3 & V3 & S3).
  destruct (Obj.new_Genotype heap2 a1 a2 (random_seed g)) as [a3 heap3].
  cbn [fst snd] in *.
  eexists _, _. split; [reflexivity|].
  cbn [fst snd]. apply (content_intro heap3 a3 a1 a2); [done| |].
  - apply (lookup_weaken heap1); [done|by trans heap2].
  - by apply (lookup_weaken heap2).
Qed.

Lemma crossover_allocating (heap : gmap positive object)
    (parent1 parent2 : positive)
    (p1 p2 : Genotype CppnwinGenotype ArrayGenotype) (rng : Random)
    (first_best : bool) (globals : Globals) :
  Obj.content heap parent1 = Some p1 →
  Obj.content heap parent2 = Some p2 →
  ∃ offspring heap',
    Obj.crossover (encoders := allocating_encoders) parent1 parent2 rng
      first_best globals heap
    = Some (offspring, heap',
            (crossover p1 p2 rng first_best globals).1.2,
            (crossover p1 p2 rng first_best globals).2) ∧
    Obj.content heap' offspring
    = Some (crossover p1 p2 rng first_best globals).1.1.
Proof.
  intros (b1 & r1 & Hp1 & Hb1 & Hr1)%content_inv
         (b2 & r2 & Hp2 & Hb2 & Hr2)%content_inv.
  unfold Obj.crossover, crossover.
  destruct (_multineat_rng_from_random rng) as [multineat_rng rng1].
  unfold Obj.getattr_body. rewrite Hp1, Hp2. cbn [mbind option_bind].
  cbn [Obj.crossover_v1 allocating_encoders]. rewrite Hb1, Hb2.
  destruct (crossover_v1 _ _ _ _ _ _ _) as [vb globals1].
  destruct (new_object_new heap (Obj.CppnwinObject vb)) as (F1 & V1 & S1).
  destruct (new_object heap (Obj.CppnwinObject vb)) as [a1 heap1].
  cbn [fst snd] in *.
  unfold Obj.getattr_brain.
  rewrite (lookup_weaken _ _ _ _ Hp1 S1), (lookup_weaken _ _ _ _ Hp2 S1).
  cbn [mbind option_bind].
  cbn [Obj.brain_crossover allocating_encoders].
  rewrite (lookup_weaken _ _ _ _ Hr1 S1), (lookup_weaken _ _ _ _ Hr2 S1).
  destruct (brain_crossover _ _ _ _ _) as [vr globals2].
  destruct (new_object_new heap1 (Obj.ArrayObject vr)) as (F2 & V2 & S2).
  destruct (new_object heap1 (Obj.ArrayObject vr)) as [a2 heap2].
  cbn [fst snd] in *.
  assert (heap ⊆ heap2) as S12 by by trans heap1.
  unfold Obj.getattr_random_seed.
  rewrite (lookup_weaken _ _ _ _ Hp1 S12), (lookup_weaken _ _ _ _ Hp2 S12).
  assert ((if first_best then Some (random_seed p1)
           else Some (random_seed p2))
          = Some (if first_best then random_seed p1 else random_seed p2))
    as -> by by destruct first_best.
  cbn [mbind option_bind].
  destruct (new_Genotype_new heap2 a1 a2
              (if first_best then random_seed p1 else random_seed p2))
    as (F3 & V3 & S3).
  destruct (Obj.new_Genotype heap2 a1 a2 _) as [a3 heap3].
  cbn [fst snd] in *.
  eexists _, _. split; [reflexivity|].
  cbn [fst snd]. apply (content_intro heap3 a3 a1 a2); [done| |].
  - apply (lookup_weaken heap1); [done|by trans heap2].
  - by apply (lookup_weaken heap2).
Qed.

Lemma random_allocating (heap : gmap positive object)
    (innov_db_body : InnovationDatabase) (rng : Random)
    (num_initial_mutations robot_grid_size : Z) (globals : Globals) :
  let born := Obj.random (encoders := allocating_encoders) innov_db_body
                rng num_initial_mutations robot_grid_size globals heap in
  let value := random innov_db_body rng num_initial_mutations
                 robot_grid_size globals in
  (born.1.1.2, born.1.2, born.2) = (value.1.1.2, value.1.2, value.2) ∧
  Obj.content born.1.1.1.2 born.1.1.1.1 = Some value.1.1.1.
Proof.
  cbv zeta. unfold Obj.random, random.
  destruct (_multineat_rng_from_random rng) as [multineat_rng rng1].
  cbn [Obj.body_random allocating_encoders].
  destruct (body_random _ _ _ _ _ _) as [[vb innov] globals1].
  destruct (new_object_new heap (Obj.CppnwinObject vb)) as (F1 & V1 & S1).
  destruct (new_object heap (Obj.CppnwinObject vb)) as [a1 heap1].
  cbn [fst snd] in *.
  cbn [Obj.random_array_genotype allocating_encoders].
  destruct (random_array_genotype _ _ _) as [[vr rng2] globals2].
  destruct (new_object_new heap1 (Obj.ArrayObject vr)) as (F2 & V2 & S2).
  destruct (new_object heap1 (Obj.ArrayObject vr)) as [a2 heap2].
  cbn [fst snd] in *.
  destruct (randint 1 10000 rng2) as [seed rng3].
  destruct (new_Genotype_new heap2 a1 a2 seed) as (F3 & V3 & S3).
  destruct (Obj.new_Genotype heap2 a1 a2 seed) as [a3 heap3].
  cbn [fst snd] in *. split; [done|].
  apply (content_intro heap3 a3 a1 a2); [done| |].
  - apply (lookup_weaken heap1); [done|by trans heap2].
  - by apply (lookup_weaken heap2).
Qed.
End AllocatingProofs.

(** ** The operators on concrete objects *)

Section ObjectExamples.
Import Reference.

Example mutate_heap0 :
  ∃ heap',
    Obj.mutate (encoders := allocating_encoders) 1%positive 0 0 5 0 heap0
    = Some (9%positive, heap', 1, 1222621274, 1) ∧
    Obj.content heap' 9%positive
    = Some (Build_Genotype [5; 1; 2] [0; 3] 42) ∧
    Obj.content heap' 1%positive = Some g1.
Proof. eexists. repeat split; vm_compute; reflexivity. Qed.

(** With an encoder that writes to the object it is handed, [mutate]
    changes the brain of its input. *)
Example mutate_overwriting_encoder :
  ∃ heap',
    Obj.mutate (encoders := overwriting_encoders) 1%positive 0 0 5 0 heap0
    = Some (8%positive, heap', 1, 1222621274, 1) ∧
    Obj.content heap0 1%positive = Some (Build_Genotype [1; 2] [3] 42) ∧
    Obj.content heap' 1%positive = Some (Build_Genotype [1; 2] [0; 3] 42).
Proof. eexists. repeat split; vm_compute; reflexivity. Qed.


End ObjectExamples.

(** * Further properties of the serializer *)

Lemma length_zip3_with_min {A B C D} (f : A → B → C → D) l1 l2 l3 :
  length (zip3_with f l1 l2 l3)
  = Nat.min (Nat.min (length l1) (length l2)) (length l3).
Proof.
  revert l2 l3. induction l1 as [|a l1 IH]; intros [|b l2] [|c l3]; cbn;
    try lia.
  rewrite IH. lia.
Qed.

Lemma length_assign_ids next objs : length (assign_ids next objs) = length objs.
Proof.
  revert next. induction objs as [|o objs IH]; intros next; [done|].
  cbn. destruct (DbGenotype.id o); cbn; by rewrite IH.
Qed.

Lemma select_id_in_nil (table : list DbGenotype.t) :
  filter (id_in []) table = [].
Proof.
  induction table as [|t table IH]; [done|].
  rewrite filter_cons_False; [done|].
  unfold id_in. destruct (DbGenotype.id t); cbn; [|tauto]. apply not_elem_of_nil.
Qed.

Lemma stored_app_l table rows i : stored table i → stored (table ++ rows) i.
Proof. unfold stored. rewrite fmap_app, elem_of_app. auto. Qed.

Lemma rows_unique (table l1 l2 : list DbGenotype.t) :
  NoDup (DbGenotype.id <$> table) →
  l1 ⊆ table → l2 ⊆ table →
  DbGenotype.id <$> l1 = DbGenotype.id <$> l2 → l1 = l2.
Proof.
  intros Hnd. revert l2. induction l1 as [|a l1 IH]; intros [|b l2]; cbn;
    try done.
  intros H1 H2 [= Hab Hl]. f_equal.
  - assert (a ∈ table) as Ha by (apply H1; by left).
    assert (b ∈ table) as Hb by (apply H2; by left).
    pose proof (dict_by_id_lookup _ _ Hnd Ha) as Ea.
    pose proof (dict_by_id_lookup _ _ Hnd Hb) as Eb.
    rewrite Hab in Ea. congruence.
  - apply IH; [|..|done]; intros x Hx; [apply H1|apply H2]; by right.
Qed.

Lemma dict_by_id_Permutation (rows rows' : list DbGenotype.t) :
  NoDup (DbGenotype.id <$> rows) → rows ≡ₚ rows' →
  dict_by_id rows' = dict_by_id rows.
Proof.
  intros Hnd Hperm.
  assert (NoDup (DbGenotype.id <$> rows')) as Hnd' by by rewrite <- Hperm.
  apply map_eq. intros k.
  destruct (decide (k ∈ DbGenotype.id <$> rows)) as [Hin|Hout].
  - apply list_elem_of_fmap in Hin as (t & -> & Ht).
    rewrite (dict_by_id_lookup rows) by done.
    apply dict_by_id_lookup; [done|]. by rewrite <- Hperm.
  - unfold dict_by_id. rewrite !dict_by_id_foldl_notin; [done|done|].
    by rewrite <- Hperm.
Qed.

Section PersistenceMore.
Context {CppnwinGenotype ArrayGenotype BodyStore BrainStore SeedStore : Type}.
Context (CppnwinGenotypeSerializer : Serializer.t BodyStore CppnwinGenotype).
Context (ArrayGenotypeSerializer : Serializer.t BrainStore ArrayGenotype).
Context (FloatSerializer : Serializer.t SeedStore Z).

Abbreviation Genotype := (Genotype CppnwinGenotype ArrayGenotype).
Abbreviation AsyncSession := (AsyncSession BodyStore BrainStore SeedStore).
Abbreviation genotypes_to_database :=
  (to_database CppnwinGenotypeSerializer ArrayGenotypeSerializer
     FloatSerializer).
Abbreviation genotypes_from_database :=
  (from_database CppnwinGenotypeSerializer ArrayGenotypeSerializer
     FloatSerializer).
Abbreviation new_row :=
  (λ body_id brain_id seed_id : Z,
     DbGenotype.Build None body_id brain_id seed_id).
Abbreviation read_rows := (λ (session : AsyncSession) rows,
  body_genotypes ← Serializer.from_database CppnwinGenotypeSerializer
                     (body_store session) (DbGenotype.body_id <$> rows);
  brain_genotypes ← Serializer.from_database ArrayGenotypeSerializer
                      (brain_store session) (DbGenotype.brain_id <$> rows);
  random_seeds ← Serializer.from_database FloatSerializer
                   (seed_store session) (DbGenotype.seed_id <$> rows);
  Ok (zip3_with Build_Genotype body_genotypes brain_genotypes random_seeds)).

(** [to_database] once the three writes have returned, whatever the
    number of ids each returned. *)
Lemma to_database_written (session : AsyncSession) (L : list Genotype)
    body_ids bs brain_ids rs seed_ids ss :
  Serializer.to_database CppnwinGenotypeSerializer (body_store session)
    (body <$> L) = Ok (body_ids, bs) →
  Serializer.to_database ArrayGenotypeSerializer (brain_store session)
    (brain <$> L) = Ok (brain_ids, rs) →
  Serializer.to_database FloatSerializer (seed_store session)
    (random_seed <$> L) = Ok (seed_ids, ss) →
  genotypes_to_database session L
  = let objs := zip3_with new_row body_ids brain_ids seed_ids in
    if decide (length objs = length L)
    then Ok (seqZ (genotype_next_id session) (Z.of_nat (length L)),
             Build_AsyncSession bs rs ss
               (genotype_table session
                ++ assign_ids (genotype_next_id session) objs)
               (genotype_next_id session + Z.of_nat (length L)))
    else Raise AssertionError.
Proof.
  intros Hb Hr Hs. unfold to_database. rewrite Hb, Hr, Hs. cbn.
  pose proof (zip3_with_unsaved body_ids brain_ids seed_ids) as Hnew.
  rewrite (omap_Some_fmap _ _ _ (assign_ids_keys _ _ Hnew)).
  rewrite count_new_unsaved by done. rewrite length_seqZ, Nat2Z.id.
  destruct (decide _) as [->|]; done.
Qed.

Lemma to_database_inv (session session' : AsyncSession) (L : list Genotype)
    ids :
  genotypes_to_database session L = Ok (ids, session') →
  ∃ body_ids bs brain_ids rs seed_ids ss,
    Serializer.to_database CppnwinGenotypeSerializer (body_store session)
      (body <$> L) = Ok (body_ids, bs) ∧
    Serializer.to_database ArrayGenotypeSerializer (brain_store session)
      (brain <$> L) = Ok (brain_ids, rs) ∧
    Serializer.to_database FloatSerializer (seed_store session)
      (random_seed <$> L) = Ok (seed_ids, ss) ∧
    length (zip3_with new_row body_ids brain_ids seed_ids) = length L ∧
    ids = seqZ (genotype_next_id session) (Z.of_nat (length L)) ∧
    session' = Build_AsyncSession bs rs ss
                 (genotype_table session
                  ++ assign_ids (genotype_next_id session)
                       (zip3_with new_row body_ids brain_ids seed_ids))
                 (genotype_next_id session + Z.of_nat (length L)).
Proof.
  intros H.
  destruct (to_database_writes CppnwinGenotypeSerializer
              ArrayGenotypeSerializer FloatSerializer session L)
    as [(e & He & _)|(body_ids & bs & brain_ids & rs & seed_ids & ss
                      & Eb & Er & Es)]; [congruence|].
  rewrite (to_database_written _ _ _ _ _ _ _ _ Eb Er Es) in H. cbv zeta in H.
  destruct (decide _) as [Hlen|]; [|done]. injection H as <- <-.
  eauto 12.
Qed.

(** X1. A successful [to_database] only appends: the rows already in the
    table are kept as they are, one row per genotype is added, the key
    counter advances by the number of genotypes, and a well-formed table
    stays well formed. *)
Theorem to_database_appends (session session' : AsyncSession)
    (L : list Genotype) (ids : list Z) :
  genotypes_to_database session L = Ok (ids, session') →
  (∃ rows,
      genotype_table session' = genotype_table session ++ rows ∧
      length rows = length L) ∧
  genotype_next_id session'
  = genotype_next_id session + Z.of_nat (length L) ∧
  (∀ i, stored (genotype_table session) i →
        stored (genotype_table session') i) ∧
  (table_ok (genotype_table session) (genotype_next_id session) →
   table_ok (genotype_table session') (genotype_next_id session')).
Proof.
  intros H. apply to_database_inv in H
    as (body_ids & bs & brain_ids & rs & seed_ids & ss
        & _ & _ & _ & Hlen & _ & ->).
  cbn. split; [|split; [done|split]].
  - eexists. split; [done|]. by rewrite length_assign_ids.
  - intros i. apply stored_app_l.
  - intros Hok. rewrite <- Hlen.
    apply table_ok_flush; [done|apply zip3_with_unsaved].
Qed.

(** X2. The ids returned by [to_database] on a well-formed table are
    pairwise distinct, not below the key counter (so positive when the
    counter is), in use by no row before the call and stored after it. *)
Theorem to_database_fresh_ids (session session' : AsyncSession)
    (L : list Genotype) (ids : list Z) :
  table_ok (genotype_table session) (genotype_next_id session) →
  genotypes_to_database session L = Ok (ids, session') →
  NoDup ids ∧
  ∀ i, i ∈ ids →
       genotype_next_id session ≤ i ∧
       ¬ stored (genotype_table session) i ∧
       stored (genotype_table session') i.
Proof.
  intros [Hkeys _] H. apply to_database_inv in H
    as (body_ids & bs & brain_ids & rs & seed_ids & ss
        & _ & _ & _ & Hlen & -> & ->).
  split; [apply NoDup_seqZ|]. intros i Hi.
  pose proof Hi as Hrange. apply elem_of_seqZ in Hrange.
  split; [lia|]. split.
  - intros Hst. unfold stored in Hst.
    apply list_elem_of_fmap in Hst as (t & Ht & Hin).
    rewrite Forall_forall in Hkeys. specialize (Hkeys _ Hin).
    unfold key_below in Hkeys. rewrite <- Ht in Hkeys. cbn in Hkeys. lia.
  - unfold stored. cbn. rewrite fmap_app, elem_of_app. right.
    rewrite assign_ids_keys by apply zip3_with_unsaved.
    rewrite Hlen. by apply list_elem_of_fmap_2.
Qed.

(** X3. Once the three collaborators have returned their ids, the length
    assertion fails exactly when the shortest of the three id lists does
    not have one id per genotype: the zip stops at the shortest list, so
    ids in excess are dropped without an error. *)
Theorem to_database_assertion (session : AsyncSession) (L : list Genotype)
    body_ids bs brain_ids rs seed_ids ss :
  Serializer.to_database CppnwinGenotypeSerializer (body_store session)
    (body <$> L) = Ok (body_ids, bs) →
  Serializer.to_database ArrayGenotypeSerializer (brain_store session)
    (brain <$> L) = Ok (brain_ids, rs) →
  Serializer.to_database FloatSerializer (seed_store session)
    (random_seed <$> L) = Ok (seed_ids, ss) →
  let shortest :=
    Nat.min (Nat.min (length body_ids) (length brain_ids))
      (length seed_ids) in
  (genotypes_to_database session L = Raise AssertionError
   ↔ shortest ≠ length L) ∧
  (shortest = length L →
   ∃ session',
     genotypes_to_database session L
     = Ok (seqZ (genotype_next_id session) (Z.of_nat (length L)), session')
     ∧ DbGenotype.body_id <$> drop (length (genotype_table session))
                                (genotype_table session')
       = take (length L) body_ids).
Proof.
  intros Hb Hr Hs. cbv zeta.
  rewrite (to_database_written _ _ _ _ _ _ _ _ Hb Hr Hs). cbv zeta.
  rewrite length_zip3_with_min. split.
  - destruct (decide _); split; done.
  - intros Hmin. rewrite decide_True by done. eexists. split; [done|].
    cbn. rewrite drop_app_length.
    rewrite assign_ids_fmap by done.
    clear Hb Hr Hs. revert brain_ids seed_ids L Hmin.
    induction body_ids as [|b body_ids IH];
      intros [|r brain_ids] [|s seed_ids] [|g L] Hmin; cbn in *;
      try done; try lia.
    f_equal. apply IH. lia.
Qed.

(** X4. On a well-formed table [from_database] raises nothing of its own
    but the incompatibility error of the row count check: the dictionary
    subscripts cannot fail, and any other exception is one raised by a
    collaborator reading the ids of the requested rows. *)
Theorem from_database_raises (session : AsyncSession) (ids : list Z)
    (e : exn) :
  table_ok (genotype_table session) (genotype_next_id session) →
  genotypes_from_database session ids = Raise e →
  (e = IncompatibleError ∧ length (select_id_in session ids) ≠ length ids)
  ∨ (∃ rows,
        rows ⊆ genotype_table session ∧
        DbGenotype.id <$> rows = Some <$> ids ∧
        (Serializer.from_database CppnwinGenotypeSerializer
           (body_store session) (DbGenotype.body_id <$> rows) = Raise e
         ∨ Serializer.from_database ArrayGenotypeSerializer
             (brain_store session) (DbGenotype.brain_id <$> rows) = Raise e
         ∨ Serializer.from_database FloatSerializer
             (seed_store session) (DbGenotype.seed_id <$> rows) = Raise e)).
Proof.
  intros Hok H.
  destruct (decide (length (select_id_in session ids) = length ids))
    as [Heq|Hne].
  - right. apply (select_count_iff _ _ ids Hok) in Heq as [Hnd Hst].
    destruct (from_database_stored CppnwinGenotypeSerializer
                ArrayGenotypeSerializer FloatSerializer session ids
                Hok Hnd Hst) as (rows & Hsub & Hk & Hread).
    exists rows. split; [done|]. split; [done|].
    rewrite Hread in H.
    destruct (Serializer.from_database CppnwinGenotypeSerializer _ _);
      cbn in H; [|left; congruence].
    destruct (Serializer.from_database ArrayGenotypeSerializer _ _);
      cbn in H; [|right; left; congruence].
    destruct (Serializer.from_database FloatSerializer _ _);
      cbn in H; [done|right; right; congruence].
  - left. split; [|done].
    rewrite (from_database_count _ _ _ _ _ Hne) in H. congruence.
Qed.

(** X5. The result of [from_database] does not depend on the order in
    which the table holds its rows (the order in which the select
    returns them): with unique keys, rearranging the rows changes
    neither the genotypes returned nor the exception raised. *)
Theorem from_database_row_order (session : AsyncSession)
    (table' : list DbGenotype.t) (ids : list Z) :
  table_ok (genotype_table session) (genotype_next_id session) →
  table' ≡ₚ genotype_table session →
  genotypes_from_database
    (Build_AsyncSession (body_store session) (brain_store session)
       (seed_store session) table' (genotype_next_id session)) ids
  = genotypes_from_database session ids.
Proof.
  intros [_ Hnd] Hperm. unfold from_database, select_id_in.
  cbn [genotype_table body_store brain_store seed_store].
  assert (filter (id_in ids) (genotype_table session)
          ≡ₚ filter (id_in ids) table') as Hrows by by rewrite Hperm.
  rewrite <- (Permutation_length Hrows).
  destruct (decide _); [done|].
  rewrite (dict_by_id_Permutation _ _ (NoDup_fmap_filter _ _ _ Hnd) Hrows).
  done.
Qed.

(** X6. An empty request passes the row count check whatever the table
    holds: the result is what the collaborators return for empty
    batches, the empty list when each of them returns no object. *)
Theorem from_database_nil (session : AsyncSession) :
  genotypes_from_database session [] = read_rows session [] ∧
  (Serializer.from_database CppnwinGenotypeSerializer
     (body_store session) [] = Ok [] →
   Serializer.from_database ArrayGenotypeSerializer
     (brain_store session) [] = Ok [] →
   Serializer.from_database FloatSerializer
     (seed_store session) [] = Ok [] →
   genotypes_from_database session [] = Ok []).
Proof.
  assert (genotypes_from_database session [] = read_rows session []) as H.
  { unfold from_database, select_id_in. by rewrite select_id_in_nil. }
  split; [done|]. intros Hb Hr Hs. rewrite H. cbn. by rewrite Hb, Hr, Hs.
Qed.

(** X7. Genotypes stored earlier stay readable: when the collaborators'
    reads are not disturbed by their writes, a request that
    [from_database] answered before a [to_database] is answered with the
    same genotypes after it. *)
Theorem from_database_after_to_database (session session' : AsyncSession)
    (L gs : list Genotype) (ids new_ids : list Z) :
  reads_stable CppnwinGenotypeSerializer →
  reads_stable ArrayGenotypeSerializer →
  reads_stable FloatSerializer →
  table_ok (genotype_table session) (genotype_next_id session) →
  genotypes_from_database session ids = Ok gs →
  genotypes_to_database session L = Ok (new_ids, session') →
  genotypes_from_database session' ids = Ok gs.
Proof.
  intros Sb Sr Ss Hok Hread Hwrite.
  apply to_database_inv in Hwrite
    as (body_ids & bs & brain_ids & rs & seed_ids & ss
        & Wb & Wr & Ws & Hlen & _ & ->).
  pose proof (from_database_Ok_count _ _ _ _ _ _ Hread) as Hcount.
  apply (select_count_iff _ _ ids Hok) in Hcount as [Hnd Hst].
  destruct (from_database_stored CppnwinGenotypeSerializer
              ArrayGenotypeSerializer FloatSerializer session ids
              Hok Hnd Hst) as (rows & Hsub & Hk & Hrows).
  set (objs := zip3_with new_row body_ids brain_ids seed_ids) in *.
  set (session' := Build_AsyncSession bs rs ss _ _).
  assert (table_ok (genotype_table session') (genotype_next_id session'))
    as Hok'.
  { cbn. rewrite <- Hlen. apply table_ok_flush; [done|].
    apply zip3_with_unsaved. }
  assert (Forall (stored (genotype_table session')) ids) as Hst'.
  { eapply Forall_impl; [done|]. intros i. apply stored_app_l. }
  destruct (from_database_stored CppnwinGenotypeSerializer
              ArrayGenotypeSerializer FloatSerializer session' ids
              Hok' Hnd Hst') as (rows' & Hsub' & Hk' & Hrows').
  assert (rows' = rows) as ->.
  { apply (rows_unique (genotype_table session')); [apply Hok'|done| |].
    - intros t Ht. cbn. apply elem_of_app. left. by apply Hsub.
    - by rewrite Hk, Hk'. }
  rewrite Hrows'. rewrite Hrows in Hread. cbn [body_store brain_store seed_store session'].
  destruct (Serializer.from_database CppnwinGenotypeSerializer
              (body_store session) _) as [bg|] eqn:Rb; cbn in Hread; [|done].
  destruct (Serializer.from_database ArrayGenotypeSerializer
              (brain_store session) _) as [rg|] eqn:Rr; cbn in Hread; [|done].
  destruct (Serializer.from_database FloatSerializer
              (seed_store session) _) as [sg|] eqn:Rs; cbn in Hread; [|done].
  rewrite (Sb _ _ _ _ _ _ Wb Rb), (Sr _ _ _ _ _ _ Wr Rr),
    (Ss _ _ _ _ _ _ Ws Rs). done.
Qed.
End PersistenceMore.

Lemma ListSerializer_reads_stable (T : Type) :
  reads_stable (Reference.ListSerializer T).
Proof.
  intros st vs new_ids st' ids r. cbn.
  unfold Reference.list_to_database, Reference.list_from_database.
  intros [= _ <-] Hread. apply mapM_Ok_inv in Hread. apply mapM_Ok_Forall2.
  eapply Forall2_impl; [done|]. intros i v. cbn.
  destruct (decide (0 ≤ i)); [|done].
  destruct (st !! Z.to_nat i) as [w|] eqn:Hi; [|done].
  by rewrite (lookup_app_l_Some _ _ _ _ Hi).
Qed.

Section PersistenceMoreExamples.
Import Reference.

Abbreviation Bodies := (ListSerializer (list Z)).
Abbreviation Brains := (ListSerializer (list Z)).
Abbreviation Seeds := (ListSerializer Z).

Lemma to_database_appends_witness :
  to_database Bodies Brains Seeds session0 [g1; g2] = Ok ([1; 2], session2) ∧
  genotype_next_id session2
  = genotype_next_id session0 + Z.of_nat (length [g1; g2]).
Proof.
  assert (to_database Bodies Brains Seeds session0 [g1; g2]
          = Ok ([1; 2], session2)) as H by reflexivity.
  split; [exact H|].
  exact (proj1 (proj2 (to_database_appends Bodies Brains Seeds
                         session0 session2 [g1; g2] [1; 2] H))).
Defined.

Lemma to_database_fresh_ids_witness :
  table_ok (genotype_table session0) (genotype_next_id session0) ∧
  to_database Bodies Brains Seeds session0 [g1; g2] = Ok ([1; 2], session2) ∧
  NoDup [1; 2].
Proof.
  assert (table_ok (genotype_table session0) (genotype_next_id session0))
    as Hok by apply session0_ok.
  assert (to_database Bodies Brains Seeds session0 [g1; g2]
          = Ok ([1; 2], session2)) as H by reflexivity.
  split; [exact Hok|]. split; [exact H|].
  exact (proj1 (to_database_fresh_ids Bodies Brains Seeds
                  session0 session2 [g1; g2] [1; 2] Hok H)).
Defined.

Lemma to_database_assertion_witness :
  Serializer.to_database (ShortSerializer (list Z)) (body_store session0)
    (body <$> [g1; g2]) = Ok ([0], [[1; 2]; [4]]) ∧
  to_database (ShortSerializer (list Z)) Brains Seeds session0 [g1; g2]
  = Raise AssertionError.
Proof.
  split; [reflexivity|].
  refine (proj2 (proj1 (to_database_assertion (ShortSerializer (list Z))
                          Brains Seeds session0 [g1; g2]
                          [0] [[1; 2]; [4]] [0; 1] [[3]; [5; 6]]
                          [0; 1] [42; 7] eq_refl eq_refl eq_refl)) _).
  cbn. lia.
Defined.

Lemma from_database_raises_witness :
  table_ok (genotype_table session2) (genotype_next_id session2) ∧
  from_database Bodies Brains Seeds session2 [1; 5]
  = Raise IncompatibleError ∧
  ((IncompatibleError = IncompatibleError ∧
    length (select_id_in session2 [1; 5]) ≠ length [1; 5])
   ∨ (∃ rows,
         rows ⊆ genotype_table session2 ∧
         DbGenotype.id <$> rows = Some <$> [1; 5] ∧
         (Serializer.from_database Bodies (body_store session2)
            (DbGenotype.body_id <$> rows) = Raise IncompatibleError
          ∨ Serializer.from_database Brains (brain_store session2)
              (DbGenotype.brain_id <$> rows) = Raise IncompatibleError
          ∨ Serializer.from_database Seeds (seed_store session2)
              (DbGenotype.seed_id <$> rows) = Raise IncompatibleError))).
Proof.
  pose proof session2_table_ok as Hok.
  assert (from_database Bodies Brains Seeds session2 [1; 5]
          = Raise IncompatibleError) as H by reflexivity.
  split; [exact Hok|]. split; [exact H|].
  exact (from_database_raises Bodies Brains Seeds session2 [1; 5]
           IncompatibleError Hok H).
Defined.

Lemma from_database_row_order_witness :
  table_ok (genotype_table session2) (genotype_next_id session2) ∧
  from_database Bodies Brains Seeds
    (Build_AsyncSession (body_store session2) (brain_store session2)
       (seed_store session2)
       [DbGenotype.Build (Some 2) 1 1 1; DbGenotype.Build (Some 1) 0 0 0]
       (genotype_next_id session2)) [1; 2]
  = from_database Bodies Brains Seeds session2 [1; 2].
Proof.
  pose proof session2_table_ok as Hok.
  split; [exact Hok|].
  apply (from_database_row_order Bodies Brains Seeds session2
           [DbGenotype.Build (Some 2) 1 1 1; DbGenotype.Build (Some 1) 0 0 0]
           [1; 2] Hok).
  apply Permutation_swap.
Defined.

Lemma from_database_nil_witness :
  from_database Bodies Brains Seeds session2 [] = Ok [].
Proof.
  apply (proj2 (from_database_nil Bodies Brains Seeds session2));
    reflexivity.
Defined.

Lemma from_database_after_to_database_witness :
  reads_stable Bodies ∧ reads_stable Seeds ∧
  table_ok (genotype_table session2) (genotype_next_id session2) ∧
  from_database Bodies Brains Seeds session2 [2; 1] = Ok [g2; g1] ∧
  ∃ session3,
    to_database Bodies Brains Seeds session2 [g1] = Ok ([3], session3) ∧
    from_database Bodies Brains Seeds session3 [2; 1] = Ok [g2; g1].
Proof.
  pose proof (ListSerializer_reads_stable (list Z)) as Hl.
  pose proof (ListSerializer_reads_stable Z) as Hz.
  pose proof session2_table_ok as Hok.
  assert (from_database Bodies Brains Seeds session2 [2; 1] = Ok [g2; g1])
    as Hread by reflexivity.
  repeat (split; [assumption|]).
  eexists. split; [reflexivity|].
  refine (from_database_after_to_database Bodies Brains Seeds session2 _
            [g1] [g2; g1] [2; 1] [3] Hl Hl Hz Hok Hread _).
  reflexivity.
Defined.
End PersistenceMoreExamples.

Section PersistenceReads.
Context {CppnwinGenotype ArrayGenotype BodyStore BrainStore SeedStore : Type}.
Context (CppnwinGenotypeSerializer : Serializer.t BodyStore CppnwinGenotype).
Context (ArrayGenotypeSerializer : Serializer.t BrainStore ArrayGenotype).
Context (FloatSerializer : Serializer.t SeedStore Z).

Abbreviation Genotype := (Genotype CppnwinGenotype ArrayGenotype).
Abbreviation AsyncSession := (AsyncSession BodyStore BrainStore SeedStore).
Abbreviation genotypes_from_database :=
  (from_database CppnwinGenotypeSerializer ArrayGenotypeSerializer
     FloatSerializer).

(** X8. [from_database] has no length check on what the collaborators
    read back: for a request without duplicates whose ids are all
    stored, whatever three lists the reads of the requested rows return,
    [from_database] returns their zip, as long as the shortest of them;
    a collaborator that returns fewer objects than ids shortens the
    result and no exception is raised. *)
Theorem from_database_zip_shortest (session : AsyncSession)
    (ids : list Z) :
  table_ok (genotype_table session) (genotype_next_id session) →
  NoDup ids →
  Forall (stored (genotype_table session)) ids →
  ∃ rows,
    rows ⊆ genotype_table session ∧
    DbGenotype.id <$> rows = Some <$> ids ∧
    ∀ body_genotypes brain_genotypes random_seeds,
      Serializer.from_database CppnwinGenotypeSerializer
        (body_store session) (DbGenotype.body_id <$> rows)
      = Ok body_genotypes →
      Serializer.from_database ArrayGenotypeSerializer
        (brain_store session) (DbGenotype.brain_id <$> rows)
      = Ok brain_genotypes →
      Serializer.from_database FloatSerializer
        (seed_store session) (DbGenotype.seed_id <$> rows)
      = Ok random_seeds →
      genotypes_from_database session ids
      = Ok (zip3_with Build_Genotype body_genotypes brain_genotypes
              random_seeds) ∧
      length (zip3_with Build_Genotype body_genotypes brain_genotypes
                random_seeds)
      = Nat.min (Nat.min (length body_genotypes) (length brain_genotypes))
          (length random_seeds).
Proof.
  intros Hok Hnd Hst.
  destruct (from_database_stored CppnwinGenotypeSerializer
              ArrayGenotypeSerializer FloatSerializer session ids
              Hok Hnd Hst) as (rows & Hsub & Hk & Hrows).
  exists rows. split; [done|]. split; [done|].
  intros bg rg sg Rb Rr Rs. rewrite Hrows, Rb, Rr, Rs.
  split; [done|]. apply length_zip3_with_min.
Qed.
End PersistenceReads.

Section MoreExamples.
Import Reference.

Abbreviation Brains := (ListSerializer (list Z)).
Abbreviation Seeds := (ListSerializer Z).

(** The body serializer reads back one body for two ids: the result has
    one genotype, and nothing is raised. *)
Lemma from_database_zip_shortest_witness :
  table_ok (genotype_table session2) (genotype_next_id session2) ∧
  NoDup [2; 1] ∧
  Forall (stored (genotype_table session2)) [2; 1] ∧
  from_database (ShortReader (list Z)) Brains Seeds session2 [2; 1]
  = Ok [g2].
Proof.
  pose proof session2_table_ok as Hok.
  assert (NoDup [2; 1]) as Hnd by by apply (bool_decide_unpack _).
  assert (Forall (stored (genotype_table session2)) [2; 1]) as Hst
    by by apply (bool_decide_unpack _).
  repeat (split; [assumption|]).
  destruct (from_database_zip_shortest (ShortReader (list Z)) Brains Seeds
              session2 [2; 1] Hok Hnd Hst) as (rows & Hsub & Hk & Hread).
  assert (rows = [DbGenotype.Build (Some 2) 1 1 1;
                  DbGenotype.Build (Some 1) 0 0 0]) as ->.
  { apply (rows_unique (genotype_table session2)); [apply Hok|done| |done].
    intros t Ht. cbn.
    apply elem_of_cons in Ht as [->|Ht]; [by right; left|].
    apply elem_of_cons in Ht as [->|Ht]; [by left|].
    by apply elem_of_nil in Ht. }
  exact (proj1 (Hread [[4]] [[5; 6]; [3]] [7; 42]
                  eq_refl eq_refl eq_refl)).
Defined.
End MoreExamples.
